(** * react-barcode-scanner: session manager, scan ledger and scanner page

    A shallow embedding of the TypeScript sources
      - [src/services/api.config.ts]
      - [src/services/mock.data.ts]
      - [src/services/auth.service.ts]
      - [src/services/scanner.service.ts]
      - [src/context/AuthContext.tsx]
      - [src/pages/Scanner.tsx]
    Module-level variables of [mock.data.ts] and the browser's
    [localStorage] are threaded explicitly. No mock branch accesses state
    on both sides of its [await simulateDelay()] ([validateToken] reads
    the storage before it, the others act after it), so each mock operation
    is one transition of the world. *)

From Stdlib Require Import ZArith Ascii String.
From stdpp Require Import base strings gmap list pretty.

Local Open Scope Z_scope.
Local Open Scope string_scope.

(** ** JavaScript values

    What [JSON.parse] can return, plus [undefined] (the value of a missing
    property). Numbers are restricted to the integers: every number the
    program itself creates is a counter or a millisecond clock reading. An
    object lists its own properties, each key once. *)

#[warnings="-register-all"]
Inductive JsValue : Type :=
| JUndefined
| JNull
| JBool (b : bool)
| JNum (n : Z)
| JStr (s : string)
| JArr (items : list JsValue)
| JObj (fields : list (string * JsValue)).

(** ToBoolean: [undefined], [null], [false], [0] and [""] are falsy. *)
Definition truthy (v : JsValue) : bool :=
  match v with
  | JUndefined | JNull => false
  | JBool b => b
  | JNum n => negb (Z.eqb n 0)
  | JStr s => negb (String.eqb s "")
  | JArr _ | JObj _ => true
  end.

(** [!s] for a [string | null] read from storage. *)
Definition str_truthy (o : option string) : bool :=
  match o with
  | Some s => negb (String.eqb s "")
  | None => false
  end.

(** [!!o] for an object or [null]. *)
Definition present {A : Type} (o : option A) : bool :=
  match o with
  | Some _ => true
  | None => false
  end.

Fixpoint assoc_get (k : string) (fields : list (string * JsValue)) : JsValue :=
  match fields with
  | [] => JUndefined
  | (k', v) :: rest => if String.eqb k k' then v else assoc_get k rest
  end.

(** [v.k] for a truthy [v] and an own data property name [k] that no
    primitive wrapper or array carries (such as [id]). *)
Definition get_prop (v : JsValue) (k : string) : JsValue :=
  match v with
  | JObj fields => assoc_get k fields
  | _ => JUndefined
  end.

(** [a === b] for two values that are not one and the same object:
    primitives compare by value; an object or an array is equal only to
    itself, and so to neither operand here. *)
Definition strict_eq (a b : JsValue) : bool :=
  match a, b with
  | JUndefined, JUndefined => true
  | JNull, JNull => true
  | JBool x, JBool y => Bool.eqb x y
  | JNum x, JNum y => Z.eqb x y
  | JStr x, JStr y => String.eqb x y
  | _, _ => false
  end.

(** The platform functions the sources call. [JSON_parse] answers [None]
    where [JSON.parse] throws a [SyntaxError]. *)
Class JsRuntime : Type := {
  JSON_parse : string -> option JsValue;
  JSON_stringify : JsValue -> string;
  Date_toISOString : Z -> string
}.

(** Template-literal interpolation of an integral number: its decimal
    digits, with a leading minus sign below zero. *)
Definition num_to_string (n : Z) : string := pretty n.

(** The characters [0] to [9], of which a numeral without sign consists. *)
Definition is_digit (c : ascii) : bool :=
  (48 <=? N_of_ascii c)%N && (N_of_ascii c <=? 57)%N.

Fixpoint all_digits (s : string) : bool :=
  match s with
  | EmptyString => true
  | String c rest => is_digit c && all_digits rest
  end.

(** ** localStorage *)

Abbreviation Storage := (gmap string string).

Inductive StorageOp : Type :=
| SetItem (key value : string)
| RemoveItem (key : string).

Definition getItem (key : string) (ls : Storage) : option string := ls !! key.

Definition exec_op (ls : Storage) (op : StorageOp) : Storage :=
  match op with
  | SetItem k v => <[k := v]> ls
  | RemoveItem k => delete k ls
  end.

Definition exec_ops (ops : list StorageOp) (ls : Storage) : Storage :=
  fold_left exec_op ops ls.

(** The storage contents after each write of a sequence, in order. *)
Fixpoint storage_trace (ops : list StorageOp) (ls : Storage) : list Storage :=
  match ops with
  | [] => []
  | op :: rest => exec_op ls op :: storage_trace rest (exec_op ls op)
  end.

(** ** api.config.ts *)

Module ApiConfig.
Definition USE_MOCK : bool := true.
Definition BASE_URL : string := "https://api.example.com".
Definition AUTH_VALIDATE : string := "/auth/validate".
Definition AUTH_TOKEN : string := "auth_token".
Definition USER_DATA : string := "user_data".
End ApiConfig.

(** ** mock.data.ts *)

Module MockData.

Record MockUser : Type := {
  id : Z;
  username : string;
  email : string;
  password : string
}.

(** [scan_id] is the [id] field of [ScannedCode] ([id] names the user's). *)
Record ScannedCode : Type := {
  scan_id : string;
  data : string;
  scannedAt : string;
  userId : JsValue
}.

(** The module-level bindings [mockUsers], [scannedCodes],
    [userIdCounter] and [scanIdCounter]. *)
Record Store : Type := {
  mockUsers : list MockUser;
  scannedCodes : list ScannedCode;
  userIdCounter : Z;
  scanIdCounter : Z
}.

Definition demo_user : MockUser :=
  {| id := 1; username := "demo"; email := "demo@example.com";
     password := "demo123" |}.

(** The store as the module initialises it on load. *)
Definition init_store : Store :=
  {| mockUsers := [demo_user];
     scannedCodes := [];
     userIdCounter := Z.of_nat (length [demo_user]);
     scanIdCounter := 0 |}.

Definition generateMockToken (userId : Z) (now : Z) : string :=
  "mock-jwt-token-" +:+ num_to_string userId +:+ "-" +:+ num_to_string now.

Definition addMockUser (username0 email0 password0 : string) (st : Store)
  : MockUser * Store :=
  let counter := userIdCounter st + 1 in
  let newUser :=
    {| id := counter; username := username0; email := email0;
       password := password0 |} in
  (newUser,
   {| mockUsers := mockUsers st ++ [newUser];
      scannedCodes := scannedCodes st;
      userIdCounter := counter;
      scanIdCounter := scanIdCounter st |}).

Definition findUserByUsername (username0 : string) (st : Store)
  : option MockUser :=
  List.find (fun user => String.eqb (username user) username0) (mockUsers st).

Definition findUserByEmail (email0 : string) (st : Store) : option MockUser :=
  List.find (fun user => String.eqb (email user) email0) (mockUsers st).

Definition validateCredentials (username0 password0 : string) (st : Store)
  : option MockUser :=
  List.find
    (fun u => String.eqb (username u) username0
              && String.eqb (password u) password0)
    (mockUsers st).

Definition isCodeAlreadyScanned (data0 : string) (st : Store) : bool :=
  existsb (fun code => String.eqb (data code) data0) (scannedCodes st).

(** [getUserScanHistory]. Its one caller passes the [id] of a freshly
    parsed user, which is none of the objects the ledger stores, so [===]
    is [strict_eq]. *)
Definition getUserScanHistory (userId0 : JsValue) (st : Store)
  : list ScannedCode :=
  List.filter (fun code => strict_eq (userId code) userId0) (scannedCodes st).

Section WithRuntime.
Context `{JsRuntime}.

Definition addScannedCode (data0 : string) (userId0 : JsValue) (now : Z)
    (st : Store) : ScannedCode * Store :=
  let counter := scanIdCounter st + 1 in
  let newScan :=
    {| scan_id := "scan-" +:+ num_to_string counter;
       data := data0;
       scannedAt := Date_toISOString now;
       userId := userId0 |} in
  (newScan,
   {| mockUsers := mockUsers st;
      scannedCodes := scannedCodes st ++ [newScan];
      userIdCounter := userIdCounter st;
      scanIdCounter := counter |}).
End WithRuntime.

End MockData.

(** ** auth.service.ts *)

Module AuthService.

Record AuthUser : Type := {
  id : Z;
  username : string;
  email : string
}.

(** The object literal [{ id, username, email }] as a JavaScript value. *)
Definition AuthUser_value (u : AuthUser) : JsValue :=
  JObj [("id", JNum (id u)); ("username", JStr (username u));
        ("email", JStr (email u))].

Record LoginResponse : Type := {
  success : bool;
  token : option string;
  user : option AuthUser;
  error : option string
}.

Record SignupResponse : Type := {
  signup_success : bool;
  signup_message : option string;
  signup_error : option string
}.

(** [user?: AuthUser] holds whatever [JSON.parse] or the server produced;
    an omitted field reads as [JUndefined]. *)
Record ValidateResponse : Type := {
  valid : bool;
  valid_user : JsValue
}.

Definition not_valid : ValidateResponse :=
  {| valid := false; valid_user := JUndefined |}.

(** The request [validateToken] sends in real-API mode, and what the
    validation endpoint may answer: [fetch] rejecting, or a response with
    its [ok] flag and the outcome of [response.json()] ([None]: it throws). *)
Record Request : Type := {
  url : string;
  method : string;
  headers : list (string * string)
}.

Inductive FetchOutcome : Type :=
| FetchRejects
| FetchResponse (ok : bool) (body : option JsValue).

(** [data.k] where [data] may be anything: a [TypeError] ([None]) on
    [null] and [undefined]. *)
Definition member (v : JsValue) (k : string) : option JsValue :=
  match v with
  | JUndefined | JNull => None
  | _ => Some (get_prop v k)
  end.

(** [logout]: two [removeItem] calls. *)
Definition logout_writes : list StorageOp :=
  [RemoveItem ApiConfig.AUTH_TOKEN; RemoveItem ApiConfig.USER_DATA].

Definition logout (ls : Storage) : Storage := exec_ops logout_writes ls.

Definition getToken (ls : Storage) : option string :=
  getItem ApiConfig.AUTH_TOKEN ls.

Section WithRuntime.
Context `{JsRuntime}.

(** The two [setItem] calls of a successful [login], in program order. *)
Definition login_writes (token0 : string) (authUser : AuthUser)
  : list StorageOp :=
  [SetItem ApiConfig.AUTH_TOKEN token0;
   SetItem ApiConfig.USER_DATA (JSON_stringify (AuthUser_value authUser))].

(** [login], the [USE_MOCK] branch ([USE_MOCK] is the constant [true]).
    [now] is the reading of [Date.now()]. *)
Definition login (username0 password0 : string) (now : Z)
    (st : MockData.Store) (ls : Storage) : LoginResponse * Storage :=
  match MockData.validateCredentials username0 password0 st with
  | Some user0 =>
      let token0 := MockData.generateMockToken (MockData.id user0) now in
      let authUser :=
        {| id := MockData.id user0;
           username := MockData.username user0;
           email := MockData.email user0 |} in
      ({| success := true; token := Some token0; user := Some authUser;
          error := None |},
       exec_ops (login_writes token0 authUser) ls)
  | None =>
      ({| success := false; token := None; user := None;
          error := Some "Invalid username or password" |},
       ls)
  end.

(** [signup], the [USE_MOCK] branch. *)
Definition signup (username0 email0 password0 : string) (st : MockData.Store)
  : SignupResponse * MockData.Store :=
  match MockData.findUserByUsername username0 st with
  | Some _ =>
      ({| signup_success := false; signup_message := None;
          signup_error := Some "Username already taken" |}, st)
  | None =>
      match MockData.findUserByEmail email0 st with
      | Some _ =>
          ({| signup_success := false; signup_message := None;
              signup_error := Some "Email already registered" |}, st)
      | None =>
          ({| signup_success := true;
              signup_message :=
                Some "Account created successfully. Please login.";
              signup_error := None |},
           snd (MockData.addMockUser username0 email0 password0 st))
      end
  end.

Definition validate_request (token0 : string) : Request :=
  {| url := ApiConfig.BASE_URL +:+ ApiConfig.AUTH_VALIDATE;
     method := "GET";
     headers := [("Authorization", "Bearer " +:+ token0)] |}.

(** [validateToken], both branches. The result carries the response, the
    storage afterwards (the real branch may [logout]) and the requests sent
    to the validation endpoint [net]. *)
Definition validateToken_with (use_mock : bool) (net : Request -> FetchOutcome)
    (ls : Storage) : ValidateResponse * Storage * list Request :=
  let token0 := getItem ApiConfig.AUTH_TOKEN ls in
  let userData := getItem ApiConfig.USER_DATA ls in
  match token0, userData with
  | Some tok, Some ud =>
      if negb (str_truthy token0) || negb (str_truthy userData)
      then (not_valid, ls, [])
      else if use_mock then
        if String.prefix "mock-jwt-token-" tok then
          match JSON_parse ud with
          | Some user0 => ({| valid := true; valid_user := user0 |}, ls, [])
          | None => (not_valid, ls, [])
          end
        else (not_valid, ls, [])
      else
        let req := validate_request tok in
        match net req with
        | FetchResponse true (Some data0) =>
            match member data0 "user" with
            | Some user0 =>
                ({| valid := true; valid_user := user0 |}, ls, [req])
            | None => (not_valid, ls, [req])
            end
        | FetchResponse true None => (not_valid, ls, [req])
        | FetchResponse false _ => (not_valid, logout ls, [req])
        | FetchRejects => (not_valid, ls, [req])
        end
  | _, _ => (not_valid, ls, [])
  end.

(** [validateToken] as configured by [api.config.ts]. *)
Definition validateToken (net : Request -> FetchOutcome) (ls : Storage)
  : ValidateResponse * Storage * list Request :=
  validateToken_with ApiConfig.USE_MOCK net ls.

(** [getCurrentUser]: [AuthUser | null], at run time any parsed value. *)
Definition getCurrentUser (ls : Storage) : JsValue :=
  let userData := getItem ApiConfig.USER_DATA ls in
  match userData with
  | Some ud =>
      if str_truthy userData then
        match JSON_parse ud with
        | Some v => v
        | None => JNull
        end
      else JNull
  | None => JNull
  end.

End WithRuntime.

End AuthService.

(** ** scanner.service.ts *)

Module ScannerService.

Record ScanSubmitResponse : Type := {
  success : bool;
  duplicate : option bool;
  message : option string;
  scanId : option string;
  error : option string
}.

Record ScanHistoryResponse : Type := {
  history_success : bool;
  scans : option (list MockData.ScannedCode);
  history_error : option string
}.

(** [getAuthHeader]: the header object as its list of entries. *)
Definition getAuthHeader (ls : Storage) : list (string * string) :=
  let token0 := getItem ApiConfig.AUTH_TOKEN ls in
  match token0 with
  | Some tok =>
      if str_truthy token0 then [("Authorization", "Bearer " +:+ tok)] else []
  | None => []
  end.

Definition not_authenticated : ScanSubmitResponse :=
  {| success := false; duplicate := None; message := None; scanId := None;
     error := Some "User not authenticated" |}.

Definition duplicate_response : ScanSubmitResponse :=
  {| success := false; duplicate := Some true;
     message := Some "This QR code has already been scanned";
     scanId := None; error := None |}.

Definition accepted_response (scan : MockData.ScannedCode)
  : ScanSubmitResponse :=
  {| success := true; duplicate := None;
     message := Some "QR code scanned successfully";
     scanId := Some (MockData.scan_id scan); error := None |}.

Section WithRuntime.
Context `{JsRuntime}.

(** [submitScan], the [USE_MOCK] branch. Nothing is awaited between the
    duplicate check and the insert. [now] is the reading of [new Date()]. *)
Definition submitScan (scannedData : string) (now : Z)
    (st : MockData.Store) (ls : Storage)
  : ScanSubmitResponse * MockData.Store :=
  let user0 := AuthService.getCurrentUser ls in
  if negb (truthy user0) then (not_authenticated, st)
  else if MockData.isCodeAlreadyScanned scannedData st
  then (duplicate_response, st)
  else
    let '(scan, st') :=
      MockData.addScannedCode scannedData (get_prop user0 "id") now st in
    (accepted_response scan, st').

(** [getScanHistory], the [USE_MOCK] branch. *)
Definition getScanHistory (st : MockData.Store) (ls : Storage)
  : ScanHistoryResponse :=
  let user0 := AuthService.getCurrentUser ls in
  if negb (truthy user0) then
    {| history_success := false; scans := None;
       history_error := Some "User not authenticated" |}
  else
    {| history_success := true;
       scans := Some (MockData.getUserScanHistory (get_prop user0 "id") st);
       history_error := None |}.

(** [checkDuplicate], the [USE_MOCK] branch. *)
Definition checkDuplicate (scannedData : string) (st : MockData.Store) : bool :=
  MockData.isCodeAlreadyScanned scannedData st.

End WithRuntime.

End ScannerService.

(** ** context/AuthContext.tsx *)

Module AuthContext.

Record AuthState : Type := {
  user : JsValue;
  isLoading : bool
}.

(** [useState(null)] and [useState(true)]. *)
Definition initial : AuthState := {| user := JNull; isLoading := true |}.

Definition isAuthenticated (s : AuthState) : bool := truthy (user s).

Section WithRuntime.
Context `{JsRuntime}.

(** The mount effect [checkAuth]. *)
Definition checkAuth (net : AuthService.Request -> AuthService.FetchOutcome)
    (ls : Storage) (s : AuthState) : AuthState * Storage :=
  let '(result, ls', _) := AuthService.validateToken net ls in
  if AuthService.valid result && truthy (AuthService.valid_user result)
  then ({| user := AuthService.valid_user result; isLoading := false |}, ls')
  else ({| user := user s; isLoading := false |}, ls').

(** [login]: the context's wrapper around the service. *)
Definition login (username0 password0 : string) (now : Z)
    (st : MockData.Store) (ls : Storage) (s : AuthState)
  : bool * option string * AuthState * Storage :=
  let '(result, ls') := AuthService.login username0 password0 now st ls in
  match AuthService.success result, AuthService.user result with
  | true, Some u =>
      (true, None,
       {| user := AuthService.AuthUser_value u; isLoading := false |}, ls')
  | _, _ =>
      (false, AuthService.error result,
       {| user := user s; isLoading := false |}, ls')
  end.

(** [signup]: the context's wrapper; it leaves [user] alone. *)
Definition signup (username0 email0 password0 : string)
    (st : MockData.Store) (s : AuthState)
  : AuthService.SignupResponse * AuthState * MockData.Store :=
  let '(result, st') := AuthService.signup username0 email0 password0 st in
  ({| AuthService.signup_success := AuthService.signup_success result;
      AuthService.signup_message := AuthService.signup_message result;
      AuthService.signup_error := AuthService.signup_error result |},
   {| user := user s; isLoading := false |}, st').

End WithRuntime.

Definition logout (ls : Storage) (s : AuthState) : AuthState * Storage :=
  ({| user := JNull; isLoading := isLoading s |}, AuthService.logout ls).

End AuthContext.

(** ** pages/Scanner.tsx *)

Module ScannerPage.

Inductive ScanState : Type :=
| Scanning | Processing | Success | Duplicate | Error.

Definition ScanState_eqb (a b : ScanState) : bool :=
  match a, b with
  | Scanning, Scanning | Processing, Processing | Success, Success
  | Duplicate, Duplicate | Error, Error => true
  | _, _ => false
  end.

Record ScanResult : Type := {
  data : string;
  message : string
}.

(** The five [useState] cells of the component. *)
Record ScannerState : Type := {
  scanState : ScanState;
  scanResult : option ScanResult;
  stopStream : bool;
  cameraError : option string;
  snackbarOpen : bool
}.

Definition initial : ScannerState :=
  {| scanState := Scanning; scanResult := None; stopStream := false;
     cameraError := None; snackbarOpen := false |}.

(** [m || fallback] for an optional string. *)
Definition or_else (m : option string) (fallback : string) : string :=
  match m with
  | Some s => if String.eqb s "" then fallback else s
  | None => fallback
  end.

(** [handleScanUpdate] up to its [await]: the guard, then for a decoded
    result the two state writes and the call of [submitScan]. The callback
    is made by [useCallback] with the dependency [scanState]: the guard
    tests [captured], the [scanState] constant of the render that made the
    callback, while the setters write to the state cells [s] of the moment
    of the call. [result] is [result.getText()] when the camera delivered a
    result. The second component is the argument of the [submitScan] call,
    if one is made. *)
Definition handleScanUpdate_start (captured : ScanState)
    (result : option string) (s : ScannerState)
  : ScannerState * option string :=
  if negb (ScanState_eqb captured Scanning) then (s, None)
  else
    match result with
    | Some scannedData =>
        ({| scanState := Processing; scanResult := scanResult s;
            stopStream := true; cameraError := cameraError s;
            snackbarOpen := snackbarOpen s |},
         Some scannedData)
    | None => (s, None)
    end.

(** [handleScanUpdate] after its [await]: [response] is what [submitScan]
    resolved to, [None] when the call threw. *)
Definition handleScanUpdate_resume (scannedData : string)
    (response : option ScannerService.ScanSubmitResponse) (s : ScannerState)
  : ScannerState :=
  let finish (st : ScanState) (msg : string) :=
    {| scanState := st;
       scanResult := Some {| data := scannedData; message := msg |};
       stopStream := stopStream s; cameraError := cameraError s;
       snackbarOpen := true |} in
  match response with
  | Some r =>
      if ScannerService.success r then
        finish Success
          (or_else (ScannerService.message r) "Scan submitted successfully!")
      else if match ScannerService.duplicate r with
              | Some b => b
              | None => false
              end then
        finish Duplicate
          (or_else (ScannerService.message r)
             "This code has already been scanned")
      else
        finish Error (or_else (ScannerService.error r) "Failed to submit scan")
  | None => finish Error "An unexpected error occurred"
  end.

Inductive CameraFailure : Type :=
| FailureText (text : string)
| FailureException (name : string).

Definition handleCameraError (failure : CameraFailure) (s : ScannerState)
  : ScannerState :=
  let msg :=
    match failure with
    | FailureException name =>
        if String.eqb name "NotAllowedError" then
          "Camera access denied. Please allow camera access in your browser settings."
        else if String.eqb name "NotFoundError" then
          "No camera found on this device."
        else "Failed to access camera. Please try again."
    | FailureText _ => "Failed to access camera. Please try again."
    end in
  {| scanState := scanState s; scanResult := scanResult s;
     stopStream := stopStream s; cameraError := Some msg;
     snackbarOpen := snackbarOpen s |}.

Definition handleScanAnother (s : ScannerState) : ScannerState :=
  {| scanState := Scanning; scanResult := None; stopStream := false;
     cameraError := None; snackbarOpen := snackbarOpen s |}.

Definition handleBack (s : ScannerState) : ScannerState :=
  {| scanState := scanState s; scanResult := scanResult s;
     stopStream := true; cameraError := cameraError s;
     snackbarOpen := snackbarOpen s |}.

Inductive StatusIcon : Type :=
| CheckCircle | Warning | ErrorIcon.

Definition getStatusIcon (s : ScannerState) : option StatusIcon :=
  match scanState s with
  | Success => Some CheckCircle
  | Duplicate => Some Warning
  | Error => Some ErrorIcon
  | _ => None
  end.

Inductive Severity : Type :=
| SeveritySuccess | SeverityWarning | SeverityError | SeverityInfo.

Definition getStatusColor (s : ScannerState) : Severity :=
  match scanState s with
  | Success => SeveritySuccess
  | Duplicate => SeverityWarning
  | Error => SeverityError
  | _ => SeverityInfo
  end.

Definition is_terminal (st : ScanState) : bool :=
  match st with
  | Success | Duplicate | Error => true
  | _ => false
  end.

(** The conditional blocks of the component's JSX: the camera-error alert,
    the scanner view (which mounts [BarcodeScanner]), the processing view
    and the result view. *)
Record Rendered : Type := {
  cameraAlert : option string;
  scannerView : bool;
  processingView : bool;
  resultView : option ScanResult
}.

Definition render (s : ScannerState) : Rendered :=
  {| cameraAlert :=
       if str_truthy (cameraError s) then cameraError s else None;
     scannerView :=
       ScanState_eqb (scanState s) Scanning && negb (str_truthy (cameraError s));
     processingView := ScanState_eqb (scanState s) Processing;
     resultView :=
       if is_terminal (scanState s) then scanResult s else None |}.

(** The [onUpdate] callback a render hands to the camera, given by the
    [scanState] constant it has captured: a render passes
    [handleScanUpdate] to [BarcodeScanner] inside the scanner view only. *)
Definition handler_for_camera (s : ScannerState) : option ScanState :=
  if scannerView (render s) then Some (scanState s) else None.

(** The constant inside the callback the camera holds. The first render
    hands it one, made with [scanState] scanning, and whenever a later
    render hands it another, that one is made with [scanState] scanning
    too, the scanner view being rendered in that state alone. *)
Definition camera_captured : ScanState := Scanning.

(** What can happen to the mounted component: the camera delivers an
    update (with or without a decoded result), a [submitScan] call started
    earlier settles, the camera reports a failure, or the user presses
    Back or Scan Another (the Retry button calls [handleScanAnother] too). *)
Inductive UiEvent : Type :=
| Decoded (result : option string)
| SubmitSettled (scannedData : string)
    (response : option ScannerService.ScanSubmitResponse)
| CameraFailed (failure : CameraFailure)
| BackPressed
| ScanAnotherPressed.

(** One event. A camera update runs the callback the camera holds, on
    the state cells as they are; the other handlers read no captured state.
    The second component is the argument of the [submitScan] call the
    event starts, if it starts one. *)
Definition ui_step (e : UiEvent) (s : ScannerState)
  : ScannerState * option string :=
  match e with
  | Decoded result => handleScanUpdate_start camera_captured result s
  | SubmitSettled scannedData response =>
      (handleScanUpdate_resume scannedData response s, None)
  | CameraFailed failure => (handleCameraError failure s, None)
  | BackPressed => (handleBack s, None)
  | ScanAnotherPressed => (handleScanAnother s, None)
  end.

(** A sequence of events; the list collects the [submitScan] calls made. *)
Fixpoint ui_run (events : list UiEvent) (s : ScannerState)
  : ScannerState * list string :=
  match events with
  | [] => (s, [])
  | e :: rest =>
      let '(s1, call) := ui_step e s in
      let '(s2, calls) := ui_run rest s1 in
      (s2, (option_list call ++ calls)%list)
  end.

(** The page states the component can be in after mounting. *)
Definition ui_reachable (s : ScannerState) : Prop :=
  exists events, s = fst (ui_run events initial).

End ScannerPage.

(** ** A concrete runtime

    An executable [JsRuntime] for running the model on concrete inputs: a
    JSON printer and a recursive-descent JSON reader over the integral
    fragment of [JsValue] (a number text with a fraction or an exponent,
    and a [\u] escape above code 255, are outside its domain and rejected),
    and the UTC calendar conversion of [toISOString] for the years 0000 to
    9999. *)

Module Json.

Local Open Scope char_scope.

Definition hex_digit (n : N) : ascii :=
  ascii_of_N (if (n <? 10)%N then 48 + n else 87 + n).

Fixpoint quote_body (s : string) : string :=
  match s with
  | EmptyString => EmptyString
  | String c rest =>
      let n := N_of_ascii c in
      let tail := quote_body rest in
      if Ascii.eqb c "034" then String "\" (String "034" tail)
      else if Ascii.eqb c "\" then String "\" (String "\" tail)
      else if (n =? 8)%N then String "\" (String "b" tail)
      else if (n =? 12)%N then String "\" (String "f" tail)
      else if (n =? 10)%N then String "\" (String "n" tail)
      else if (n =? 13)%N then String "\" (String "r" tail)
      else if (n =? 9)%N then String "\" (String "t" tail)
      else if (n <? 32)%N then
        String "\" (String "u" (String "0" (String "0"
          (String (hex_digit (n / 16)) (String (hex_digit (n mod 16)) tail)))))
      else String c tail
  end.

Definition quote (s : string) : string :=
  String "034" (quote_body s +:+ String "034" EmptyString).

Fixpoint join (sep : string) (parts : list string) : string :=
  match parts with
  | [] => EmptyString
  | [p] => p
  | p :: rest => p +:+ sep +:+ join sep rest
  end.

Definition is_undefined (v : JsValue) : bool :=
  match v with
  | JUndefined => true
  | _ => false
  end.

(** [JSON.stringify] below the top level: [undefined] prints as [null] in
    an array and drops its field in an object. *)
Fixpoint stringify_value (v : JsValue) : string :=
  match v with
  | JUndefined | JNull => "null"%string
  | JBool true => "true"%string
  | JBool false => "false"%string
  | JNum n => num_to_string n
  | JStr s => quote s
  | JArr items =>
      ("[" +:+ join "," (List.map stringify_value items) +:+ "]")%string
  | JObj fields =>
      let fix members (fs : list (string * JsValue)) : list string :=
        match fs with
        | [] => []
        | (k, v') :: rest =>
            if is_undefined v' then members rest
            else (quote k +:+ ":" +:+ stringify_value v')%string :: members rest
        end in
      ("{" +:+ join "," (members fields) +:+ "}")%string
  end.

Definition stringify (v : JsValue) : string :=
  match v with
  | JUndefined => "undefined"%string
  | _ => stringify_value v
  end.

Definition is_ws (c : ascii) : bool :=
  let n := N_of_ascii c in
  (n =? 32)%N || (n =? 9)%N || (n =? 10)%N || (n =? 13)%N.

Fixpoint skip_ws (s : string) : string :=
  match s with
  | String c rest => if is_ws c then skip_ws rest else s
  | EmptyString => s
  end.

Definition digit_of (c : ascii) : option Z :=
  let n := N_of_ascii c in
  if (48 <=? n)%N && (n <=? 57)%N then Some (Z.of_N (n - 48)) else None.

Definition hex_of (c : ascii) : option N :=
  let n := N_of_ascii c in
  if (48 <=? n)%N && (n <=? 57)%N then Some (n - 48)%N
  else if (97 <=? n)%N && (n <=? 102)%N then Some (n - 87)%N
  else if (65 <=? n)%N && (n <=? 70)%N then Some (n - 55)%N
  else None.

(** The digits of a number text, accumulated left to right. *)
Fixpoint read_digits (acc : Z) (s : string) : Z * string :=
  match s with
  | String c rest =>
      match digit_of c with
      | Some d => read_digits (10 * acc + d) rest
      | None => (acc, s)
      end
  | EmptyString => (acc, s)
  end.

Definition starts_number_tail (s : string) : bool :=
  match s with
  | String c _ => Ascii.eqb c "." || Ascii.eqb c "e" || Ascii.eqb c "E"
  | EmptyString => false
  end.

(** An unsigned integer text: no leading zero, no fraction, no exponent. *)
Definition read_unsigned (s : string) : option (Z * string) :=
  match s with
  | String c rest =>
      match digit_of c with
      | Some d =>
          let '(n, rest') :=
            if Z.eqb d 0 then (0, rest) else read_digits d rest in
          match rest' with
          | String c' _ =>
              if match digit_of c' with Some _ => true | None => false end
                 || starts_number_tail rest'
              then None else Some (n, rest')
          | EmptyString => Some (n, rest')
          end
      | None => None
      end
  | EmptyString => None
  end.

(** The body of a string text up to its closing quote. *)
Fixpoint read_string (s : string) : option (string * string) :=
  match s with
  | EmptyString => None
  | String c rest =>
      if Ascii.eqb c "034" then Some (EmptyString, rest)
      else if Ascii.eqb c "\" then
        match rest with
        | String e rest1 =>
            let simple (x : ascii) :=
              match read_string rest1 with
              | Some (body, rest2) => Some (String x body, rest2)
              | None => None
              end in
            if Ascii.eqb e "034" then simple "034"
            else if Ascii.eqb e "\" then simple "\"
            else if Ascii.eqb e "/" then simple "/"
            else if Ascii.eqb e "b" then simple (ascii_of_N 8)
            else if Ascii.eqb e "f" then simple (ascii_of_N 12)
            else if Ascii.eqb e "n" then simple (ascii_of_N 10)
            else if Ascii.eqb e "r" then simple (ascii_of_N 13)
            else if Ascii.eqb e "t" then simple (ascii_of_N 9)
            else if Ascii.eqb e "u" then
              match rest1 with
              | String h1 (String h2 (String h3 (String h4 rest2))) =>
                  match hex_of h1, hex_of h2, hex_of h3, hex_of h4 with
                  | Some 0%N, Some 0%N, Some a, Some b =>
                      match read_string rest2 with
                      | Some (body, rest3) =>
                          Some (String (ascii_of_N (16 * a + b)) body, rest3)
                      | None => None
                      end
                  | _, _, _, _ => None
                  end
              | _ => None
              end
            else None
        | EmptyString => None
        end
      else if (N_of_ascii c <? 32)%N then None
      else
        match read_string rest with
        | Some (body, rest1) => Some (String c body, rest1)
        | None => None
        end
  end.

Definition set_field (k : string) (v : JsValue)
    (fields : list (string * JsValue)) : list (string * JsValue) :=
  (List.filter (fun kv => negb (String.eqb (fst kv) k)) fields ++ [(k, v)])%list.

(** One value, then the rest of the text. [read_elements] continues an
    array after its opening bracket or a comma, [read_members] an object. *)
Fixpoint read_value (fuel : nat) (s : string) {struct fuel}
  : option (JsValue * string) :=
  match fuel with
  | O => None
  | S fuel' =>
      match skip_ws s with
      | String "n" (String "u" (String "l" (String "l" rest))) =>
          Some (JNull, rest)
      | String "t" (String "r" (String "u" (String "e" rest))) =>
          Some (JBool true, rest)
      | String "f" (String "a" (String "l" (String "s" (String "e" rest)))) =>
          Some (JBool false, rest)
      | String "034" rest =>
          match read_string rest with
          | Some (body, rest') => Some (JStr body, rest')
          | None => None
          end
      | String "[" rest =>
          match skip_ws rest with
          | String "]" rest' => Some (JArr [], rest')
          | _ => read_elements fuel' [] rest
          end
      | String "{" rest =>
          match skip_ws rest with
          | String "}" rest' => Some (JObj [], rest')
          | _ => read_members fuel' [] rest
          end
      | String "-" rest =>
          match read_unsigned rest with
          | Some (n, rest') => Some (JNum (- n), rest')
          | None => None
          end
      | other =>
          match read_unsigned other with
          | Some (n, rest') => Some (JNum n, rest')
          | None => None
          end
      end
  end
with read_elements (fuel : nat) (acc : list JsValue) (s : string)
    {struct fuel} : option (JsValue * string) :=
  match fuel with
  | O => None
  | S fuel' =>
      match read_value fuel' s with
      | Some (v, rest) =>
          match skip_ws rest with
          | String "," rest' => read_elements fuel' (acc ++ [v])%list rest'
          | String "]" rest' => Some (JArr (acc ++ [v])%list, rest')
          | _ => None
          end
      | None => None
      end
  end
with read_members (fuel : nat) (acc : list (string * JsValue)) (s : string)
    {struct fuel} : option (JsValue * string) :=
  match fuel with
  | O => None
  | S fuel' =>
      match skip_ws s with
      | String "034" rest =>
          match read_string rest with
          | Some (k, rest1) =>
              match skip_ws rest1 with
              | String ":" rest2 =>
                  match read_value fuel' rest2 with
                  | Some (v, rest3) =>
                      match skip_ws rest3 with
                      | String "," rest4 =>
                          read_members fuel' (set_field k v acc) rest4
                      | String "}" rest4 =>
                          Some (JObj (set_field k v acc), rest4)
                      | _ => None
                      end
                  | None => None
                  end
              | _ => None
              end
          | None => None
          end
      | _ => None
      end
  end.

Definition parse (s : string) : option JsValue :=
  match read_value (2 * String.length s + 2) s with
  | Some (v, rest) =>
      match skip_ws rest with
      | EmptyString => Some v
      | _ => None
      end
  | None => None
  end.

Definition pad (width : nat) (n : Z) : string :=
  let digits := num_to_string n in
  (String.concat "" (List.repeat "0" (width - String.length digits))
   +:+ digits)%string.

(** [new Date(ms).toISOString()], by the days-to-civil-date computation. *)
Definition toISOString (ms : Z) : string :=
  let days := (ms / 86400000)%Z in
  let rem := (ms mod 86400000)%Z in
  let z := (days + 719468)%Z in
  let era := (z / 146097)%Z in
  let doe := (z - era * 146097)%Z in
  let yoe := ((doe - doe / 1460 + doe / 36524 - doe / 146096) / 365)%Z in
  let doy := (doe - (365 * yoe + yoe / 4 - yoe / 100))%Z in
  let mp := ((5 * doy + 2) / 153)%Z in
  let d := (doy - (153 * mp + 2) / 5 + 1)%Z in
  let m := (if (mp <? 10)%Z then mp + 3 else mp - 9)%Z in
  let y := (yoe + era * 400 + (if (m <=? 2)%Z then 1 else 0))%Z in
  (pad 4 y +:+ "-" +:+ pad 2 m +:+ "-" +:+ pad 2 d +:+ "T" +:+
   pad 2 (rem / 3600000) +:+ ":" +:+ pad 2 (rem / 60000 mod 60) +:+ ":" +:+
   pad 2 (rem / 1000 mod 60) +:+ "." +:+ pad 3 (rem mod 1000) +:+ "Z")%string.

#[export] Instance runtime : JsRuntime :=
  {| JSON_parse := parse;
     JSON_stringify := stringify;
     Date_toISOString := toISOString |}.

End Json.

(** ** The application as a transition system

    One execution context: the module state of [mock.data.ts] together
    with [localStorage]. A page load starts from [init_world] over whatever
    the storage holds; the store lives until the next load. *)

Record World : Type := {
  store : MockData.Store;
  localStorage : Storage
}.

Definition init_world (ls : Storage) : World :=
  {| store := MockData.init_store; localStorage := ls |}.

Inductive Action : Type :=
| ALogin (username password : string) (now : Z)
| ASignup (username email password : string)
| ALogout
| AValidate (net : AuthService.Request -> AuthService.FetchOutcome)
| ASubmit (scannedData : string) (now : Z).

Inductive Outcome : Type :=
| OLogin (r : AuthService.LoginResponse)
| OSignup (r : AuthService.SignupResponse)
| OLogout
| OValidate (r : AuthService.ValidateResponse)
| OSubmit (r : ScannerService.ScanSubmitResponse).

(** What the scanner page makes of a [submitScan] response. *)
Inductive ScanOutcome : Type :=
| Accepted | Duplicate | Rejected.

Definition outcome_of (r : ScannerService.ScanSubmitResponse) : ScanOutcome :=
  if ScannerService.success r then Accepted
  else match ScannerService.duplicate r with
       | Some true => Duplicate
       | _ => Rejected
       end.

(** One entry of a run: the world an operation started from, the operation
    and its result. *)
Record Entry : Type := {
  before : World;
  action : Action;
  outcome : Outcome
}.

Definition persisted_session (ls : Storage) : option string * option string :=
  (ls !! ApiConfig.AUTH_TOKEN, ls !! ApiConfig.USER_DATA).

Definition ledger_codes (st : MockData.Store) : list string :=
  List.map MockData.data (MockData.scannedCodes st).

(** The number of ledger records that carry the code [c]. *)
Definition records_of (c : string) (st : MockData.Store) : nat :=
  length (List.filter (fun code => String.eqb (MockData.data code) c)
            (MockData.scannedCodes st)).

(** The validation endpoint accepts the token: its response has [ok]. *)
Definition collaborator_recognizes
    (net : AuthService.Request -> AuthService.FetchOutcome) (token0 : string)
  : bool :=
  match net (AuthService.validate_request token0) with
  | AuthService.FetchResponse true _ => true
  | _ => false
  end.

Section Machine.
Context `{JsRuntime}.

Definition step (a : Action) (w : World) : Outcome * World :=
  match a with
  | ALogin username0 password0 now =>
      let '(r, ls') :=
        AuthService.login username0 password0 now (store w) (localStorage w) in
      (OLogin r, {| store := store w; localStorage := ls' |})
  | ASignup username0 email0 password0 =>
      let '(r, st') := AuthService.signup username0 email0 password0 (store w) in
      (OSignup r, {| store := st'; localStorage := localStorage w |})
  | ALogout =>
      (OLogout,
       {| store := store w;
          localStorage := AuthService.logout (localStorage w) |})
  | AValidate net =>
      let '(r, ls', _) := AuthService.validateToken net (localStorage w) in
      (OValidate r, {| store := store w; localStorage := ls' |})
  | ASubmit scannedData now =>
      let '(r, st') :=
        ScannerService.submitScan scannedData now (store w) (localStorage w) in
      (OSubmit r, {| store := st'; localStorage := localStorage w |})
  end.

Fixpoint run (acts : list Action) (w : World) : list Entry * World :=
  match acts with
  | [] => ([], w)
  | a :: rest =>
      let '(o, w1) := step a w in
      let '(entries, w2) := run rest w1 in
      ({| before := w; action := a; outcome := o |} :: entries, w2)
  end.

(** The worlds of an execution context: some page load, then operations. *)
Definition reachable (w : World) : Prop :=
  exists ls acts, w = snd (run acts (init_world ls)).

(** The current user is authenticated: [getCurrentUser()] is truthy. *)
Definition authenticated (w : World) : bool :=
  truthy (AuthService.getCurrentUser (localStorage w)).

(** The responses, in order, to the [submitScan] calls for the code [c]
    that an authenticated user made. *)
Fixpoint authenticated_submits (c : string) (entries : list Entry)
  : list ScannerService.ScanSubmitResponse :=
  match entries with
  | [] => []
  | e :: rest =>
      match action e, outcome e with
      | ASubmit d _, OSubmit r =>
          if String.eqb d c && authenticated (before e)
          then r :: authenticated_submits c rest
          else authenticated_submits c rest
      | _, _ => authenticated_submits c rest
      end
  end.

(** [handleScanUpdate] from call to return with the mock service behind
    it, for the callback of the render that shows [s], called while the
    state cells still are [s]: the steps before the [await], the
    [submitScan] call on the world, and the steps after it on the response,
    with no other event between. The mock [submitScan] does not throw. *)
Definition handleScanUpdate (result : option string) (now : Z) (w : World)
    (s : ScannerPage.ScannerState) : World * ScannerPage.ScannerState :=
  match ScannerPage.handleScanUpdate_start (ScannerPage.scanState s) result s
  with
  | (s1, Some scannedData) =>
      let '(response, st') :=
        ScannerService.submitScan scannedData now (store w) (localStorage w) in
      ({| store := st'; localStorage := localStorage w |},
       ScannerPage.handleScanUpdate_resume scannedData (Some response) s1)
  | (s1, None) => (w, s1)
  end.

End Machine.

(** ** Two properties of the specification, as it states them *)

Section Stated.
Context `{JsRuntime}.

(** Validity decided by the collaborator: the answer is valid exactly when
    a token is stored and the validation endpoint recognises it. *)
Definition validity_from_collaborator
    (net : AuthService.Request -> AuthService.FetchOutcome) (ls : Storage)
  : Prop :=
  AuthService.valid (fst (fst (AuthService.validateToken net ls))) = true
  <-> exists tok,
        ls !! ApiConfig.AUTH_TOKEN = Some tok
        /\ collaborator_recognizes net tok = true.

(** The session written as one unit: every storage state the writes of a
    login pass through holds either the session from before the login or
    the new token together with the new identity. *)
Definition session_written_as_unit (ls : Storage) (token0 : string)
    (authUser : AuthService.AuthUser) : Prop :=
  Forall
    (fun mid =>
       persisted_session mid = persisted_session ls
       \/ persisted_session mid
          = (Some token0,
             Some (JSON_stringify (AuthService.AuthUser_value authUser))))
    (storage_trace (AuthService.login_writes token0 authUser) ls).

End Stated.

(** ** Concrete inputs *)

Module Scenario.

(** A validation endpoint that recognises no token. *)
Definition reject_all (_ : AuthService.Request) : AuthService.FetchOutcome :=
  AuthService.FetchResponse false None.

(** A session nobody logged in for: a token of the mock's shape and an
    identity the credential store does not know. *)
Definition forged_user : JsValue :=
  JObj [("id", JNum 42); ("username", JStr "mallory");
        ("email", JStr "mallory@example.com")].

Definition forged_storage : Storage :=
  <[ApiConfig.USER_DATA := Json.stringify forged_user]>
    (<[ApiConfig.AUTH_TOKEN := "mock-jwt-token-forged"]> ∅).

(** An identity entry that is not JSON, beside a well-shaped token. *)
Definition corrupt_storage : Storage :=
  <[ApiConfig.USER_DATA := "{not json"]>
    (<[ApiConfig.AUTH_TOKEN := "mock-jwt-token-1-5"]> ∅).

(** After a page load on empty storage: alice signs up and logs in. *)
Definition alice_world : World :=
  snd (@run Json.runtime
         [ASignup "alice" "alice@example.com" "wonderland";
          ALogin "alice" "wonderland" 1000]
         (init_world ∅)).

Definition alice_value : JsValue :=
  JObj [("id", JNum 2); ("username", JStr "alice");
        ("email", JStr "alice@example.com")].

Definition demo_auth : AuthService.AuthUser :=
  {| AuthService.id := 1; AuthService.username := "demo";
     AuthService.email := "demo@example.com" |}.

(** The storage the demo user's login leaves on a fresh page load, and the
    world after that user has then scanned a first code. *)
Definition demo_storage : Storage :=
  snd (@AuthService.login Json.runtime "demo" "demo123" 5
         MockData.init_store ∅).

Definition scanned_world : World :=
  snd (@run Json.runtime [ALogin "demo" "demo123" 5; ASubmit "CODE-1" 6]
         (init_world ∅)).

(** An identity entry holding the JSON text of [null], and one holding an
    identity with no token beside it. *)
Definition null_identity_storage : Storage :=
  <[ApiConfig.USER_DATA := "null"]>
    (<[ApiConfig.AUTH_TOKEN := "mock-jwt-token-1-5"]> ∅).

Definition tokenless_storage : Storage :=
  <[ApiConfig.USER_DATA := Json.stringify forged_user]> ∅.

End Scenario.

(** * Properties *)

Section Properties.
Context {rt : JsRuntime}.

(** ** Storage facts *)

Lemma keys_distinct : ApiConfig.AUTH_TOKEN <> ApiConfig.USER_DATA.
Proof. discriminate. Qed.

Lemma logout_unfold (ls : Storage) :
  AuthService.logout ls
  = delete ApiConfig.USER_DATA (delete ApiConfig.AUTH_TOKEN ls).
Proof. reflexivity. Qed.

Lemma logout_session (ls : Storage) :
  persisted_session (AuthService.logout ls) = (None, None).
Proof.
  rewrite logout_unfold. unfold persisted_session. f_equal.
  - rewrite lookup_delete_ne by (symmetry; apply keys_distinct).
    apply lookup_delete_eq.
  - apply lookup_delete_eq.
Qed.

Lemma logout_other_keys (ls : Storage) (k : string) :
  k <> ApiConfig.AUTH_TOKEN -> k <> ApiConfig.USER_DATA ->
  AuthService.logout ls !! k = ls !! k.
Proof.
  intros Htok Hud. rewrite logout_unfold.
  rewrite lookup_delete_ne by congruence.
  rewrite lookup_delete_ne by congruence.
  reflexivity.
Qed.

Lemma logout_twice (ls : Storage) :
  AuthService.logout (AuthService.logout ls) = AuthService.logout ls.
Proof.
  apply map_eq. intros k.
  destruct (decide (k = ApiConfig.AUTH_TOKEN)) as [->|Htok].
  - pose proof (logout_session ls) as E1.
    pose proof (logout_session (AuthService.logout ls)) as E2.
    unfold persisted_session in E1, E2. congruence.
  - destruct (decide (k = ApiConfig.USER_DATA)) as [->|Hud].
    + pose proof (logout_session ls) as E1.
      pose proof (logout_session (AuthService.logout ls)) as E2.
      unfold persisted_session in E1, E2. congruence.
    + rewrite !logout_other_keys by assumption. reflexivity.
Qed.

(** ** Reading the session back *)

Lemma str_truthy_Some (s : string) :
  str_truthy (Some s) = true <-> s <> "".
Proof.
  unfold str_truthy. destruct (String.eqb_spec s ""); simpl; split;
    congruence.
Qed.

Lemma getCurrentUser_absent (ls : Storage) :
  ls !! ApiConfig.USER_DATA = None -> AuthService.getCurrentUser ls = JNull.
Proof.
  intros E. unfold AuthService.getCurrentUser, getItem. rewrite E.
  reflexivity.
Qed.

Lemma getCurrentUser_unparseable (ls : Storage) (ud : string) :
  ls !! ApiConfig.USER_DATA = Some ud -> JSON_parse ud = None ->
  AuthService.getCurrentUser ls = JNull.
Proof.
  intros E P. unfold AuthService.getCurrentUser, getItem. rewrite E, P.
  destruct (str_truthy (Some ud)); reflexivity.
Qed.

Lemma validateToken_absent (use_mock : bool)
    (net : AuthService.Request -> AuthService.FetchOutcome) (ls : Storage) :
  ls !! ApiConfig.AUTH_TOKEN = None \/ ls !! ApiConfig.USER_DATA = None ->
  AuthService.validateToken_with use_mock net ls
  = (AuthService.not_valid, ls, []).
Proof.
  intros [E|E]; unfold AuthService.validateToken_with, getItem; rewrite E.
  - reflexivity.
  - destruct (ls !! ApiConfig.AUTH_TOKEN); reflexivity.
Qed.

Lemma validateToken_mock_unparseable
    (net : AuthService.Request -> AuthService.FetchOutcome) (ls : Storage)
    (ud : string) :
  ls !! ApiConfig.USER_DATA = Some ud -> JSON_parse ud = None ->
  AuthService.validateToken_with true net ls = (AuthService.not_valid, ls, []).
Proof.
  intros E P. unfold AuthService.validateToken_with, getItem. rewrite E.
  destruct (ls !! ApiConfig.AUTH_TOKEN) as [tok|]; [|reflexivity].
  destruct (negb (str_truthy (Some tok)) || negb (str_truthy (Some ud)));
    [reflexivity|].
  rewrite P. destruct (String.prefix "mock-jwt-token-" tok); reflexivity.
Qed.

Lemma submitScan_unauthenticated (scannedData : string) (now : Z)
    (st : MockData.Store) (ls : Storage) :
  truthy (AuthService.getCurrentUser ls) = false ->
  ScannerService.submitScan scannedData now st ls
  = (ScannerService.not_authenticated, st).
Proof.
  intros E. unfold ScannerService.submitScan. rewrite E. reflexivity.
Qed.

(** C9. [logout] is a total function on storage states; after it both
    session entries are absent, also after a second call; the second call
    changes nothing; and no other storage entry is touched. *)
Theorem logout_idempotent (ls : Storage) :
  persisted_session (AuthService.logout ls) = (None, None)
  /\ persisted_session (AuthService.logout (AuthService.logout ls))
     = (None, None)
  /\ AuthService.logout (AuthService.logout ls) = AuthService.logout ls
  /\ (forall k, k <> ApiConfig.AUTH_TOKEN -> k <> ApiConfig.USER_DATA ->
        AuthService.logout ls !! k = ls !! k).
Proof.
  split; [apply logout_session|].
  split; [apply logout_session|].
  split; [apply logout_twice|].
  intros k. apply logout_other_keys.
Qed.

Lemma login_failure (username0 password0 : string) (now : Z)
    (st : MockData.Store) (ls : Storage) :
  MockData.validateCredentials username0 password0 st = None ->
  AuthService.login username0 password0 now st ls
  = ({| AuthService.success := false; AuthService.token := None;
        AuthService.user := None;
        AuthService.error := Some "Invalid username or password" |}, ls).
Proof.
  intros E. unfold AuthService.login. rewrite E. reflexivity.
Qed.

(** C7. When the credential store recognises no user for the pair,
    [login] answers the failure [Invalid username or password] and the
    storage it returns is the storage it was given, so both session
    entries are what they were; the whole world is unchanged by the step,
    and the auth context keeps the user it had. *)
Theorem login_failure_persists_nothing (username0 password0 : string) (now : Z)
    (w : World) (s : AuthContext.AuthState) :
  MockData.validateCredentials username0 password0 (store w) = None ->
  AuthService.login username0 password0 now (store w) (localStorage w)
  = ({| AuthService.success := false; AuthService.token := None;
        AuthService.user := None;
        AuthService.error := Some "Invalid username or password" |},
     localStorage w)
  /\ persisted_session
       (snd (AuthService.login username0 password0 now (store w)
               (localStorage w)))
     = persisted_session (localStorage w)
  /\ snd (step (ALogin username0 password0 now) w) = w
  /\ AuthContext.login username0 password0 now (store w) (localStorage w) s
     = (false, Some "Invalid username or password",
        {| AuthContext.user := AuthContext.user s;
           AuthContext.isLoading := false |},
        localStorage w).
Proof.
  intros E. pose proof (login_failure username0 password0 now _
                          (localStorage w) E) as L.
  split; [exact L|]. split; [rewrite L; reflexivity|]. split.
  - cbn [step]. rewrite L. destruct w; reflexivity.
  - unfold AuthContext.login. rewrite L. reflexivity.
Qed.

(** C8. With the token entry or the identity entry absent,
    [validateToken] (in either mode) answers not valid with no user, sends
    no request to the validation endpoint and leaves the storage alone;
    the auth context then stays unauthenticated. *)
Theorem validateToken_no_session (use_mock : bool)
    (net : AuthService.Request -> AuthService.FetchOutcome) (ls : Storage) :
  ls !! ApiConfig.AUTH_TOKEN = None \/ ls !! ApiConfig.USER_DATA = None ->
  AuthService.validateToken_with use_mock net ls
  = ({| AuthService.valid := false; AuthService.valid_user := JUndefined |},
     ls, [])
  /\ AuthService.validateToken net ls
     = ({| AuthService.valid := false; AuthService.valid_user := JUndefined |},
        ls, [])
  /\ AuthContext.isAuthenticated
       (fst (AuthContext.checkAuth net ls AuthContext.initial)) = false.
Proof.
  intros E. split; [|split].
  - apply validateToken_absent, E.
  - apply (validateToken_absent ApiConfig.USE_MOCK), E.
  - unfold AuthContext.checkAuth, AuthService.validateToken.
    rewrite (validateToken_absent ApiConfig.USE_MOCK net ls E).
    reflexivity.
Qed.

(** C10. When the identity entry is present but [JSON.parse] throws on
    it, [getCurrentUser] answers [null], [validateToken] answers not valid
    and [submitScan] answers not authenticated without touching the store:
    the same answers as after [logout], where no session is stored. *)
Theorem corrupt_identity_is_no_session (ls : Storage) (ud : string)
    (net : AuthService.Request -> AuthService.FetchOutcome)
    (scannedData : string) (now : Z) (st : MockData.Store) :
  ls !! ApiConfig.USER_DATA = Some ud ->
  JSON_parse ud = None ->
  AuthService.getCurrentUser ls = JNull
  /\ AuthService.getCurrentUser ls
     = AuthService.getCurrentUser (AuthService.logout ls)
  /\ fst (fst (AuthService.validateToken net ls)) = AuthService.not_valid
  /\ fst (fst (AuthService.validateToken net ls))
     = fst (fst (AuthService.validateToken net (AuthService.logout ls)))
  /\ ScannerService.submitScan scannedData now st ls
     = (ScannerService.not_authenticated, st)
  /\ ScannerService.submitScan scannedData now st ls
     = ScannerService.submitScan scannedData now st (AuthService.logout ls).
Proof.
  intros E P.
  pose proof (getCurrentUser_unparseable ls ud E P) as G.
  assert (L : AuthService.logout ls !! ApiConfig.USER_DATA = None).
  { pose proof (logout_session ls) as S. unfold persisted_session in S.
    congruence. }
  pose proof (getCurrentUser_absent _ L) as GL.
  assert (V : AuthService.validateToken net ls
              = (AuthService.not_valid, ls, [])).
  { apply (validateToken_mock_unparseable net ls ud E P). }
  assert (VL : AuthService.validateToken net (AuthService.logout ls)
               = (AuthService.not_valid, AuthService.logout ls, [])).
  { apply (validateToken_absent ApiConfig.USE_MOCK). right. exact L. }
  repeat split.
  - exact G.
  - congruence.
  - rewrite V. reflexivity.
  - rewrite V, VL. reflexivity.
  - apply submitScan_unauthenticated. rewrite G. reflexivity.
  - rewrite !submitScan_unauthenticated; [reflexivity | |].
    + rewrite GL. reflexivity.
    + rewrite G. reflexivity.
Qed.

(** ** The ledger under [submitScan] *)

Lemma submitScan_cases (scannedData : string) (now : Z)
    (st : MockData.Store) (ls : Storage) :
  let user0 := AuthService.getCurrentUser ls in
  (truthy user0 = false
   /\ ScannerService.submitScan scannedData now st ls
      = (ScannerService.not_authenticated, st))
  \/ (truthy user0 = true
      /\ MockData.isCodeAlreadyScanned scannedData st = true
      /\ ScannerService.submitScan scannedData now st ls
         = (ScannerService.duplicate_response, st))
  \/ (truthy user0 = true
      /\ MockData.isCodeAlreadyScanned scannedData st = false
      /\ ScannerService.submitScan scannedData now st ls
         = (ScannerService.accepted_response
              (fst (MockData.addScannedCode scannedData
                      (get_prop user0 "id") now st)),
            snd (MockData.addScannedCode scannedData
                   (get_prop user0 "id") now st))).
Proof.
  intros user0. unfold ScannerService.submitScan. fold user0.
  destruct (truthy user0); simpl; [|left; auto].
  destruct (MockData.isCodeAlreadyScanned scannedData st); simpl.
  - right; left; auto.
  - right; right; auto.
Qed.

Lemma records_of_unscanned (c : string) (st : MockData.Store) :
  MockData.isCodeAlreadyScanned c st = false -> records_of c st = 0%nat.
Proof.
  unfold MockData.isCodeAlreadyScanned, records_of.
  induction (MockData.scannedCodes st) as [|code codes IH]; simpl;
    [reflexivity|].
  destruct (String.eqb (MockData.data code) c); simpl; [discriminate|].
  exact IH.
Qed.

Lemma unscanned_not_in (c : string) (st : MockData.Store) :
  MockData.isCodeAlreadyScanned c st = false -> ~ In c (ledger_codes st).
Proof.
  unfold MockData.isCodeAlreadyScanned, ledger_codes.
  induction (MockData.scannedCodes st) as [|code codes IH]; simpl;
    [tauto|].
  destruct (String.eqb_spec (MockData.data code) c); simpl; [discriminate|].
  intros E [F|F]; [congruence | exact (IH E F)].
Qed.

(** The store after [addScannedCode]: one record appended, for that code. *)
Lemma addScannedCode_store (d : string) (uid : JsValue) (now : Z)
    (st : MockData.Store) :
  let scan := fst (MockData.addScannedCode d uid now st) in
  let st' := snd (MockData.addScannedCode d uid now st) in
  MockData.scannedCodes st' = (MockData.scannedCodes st ++ [scan])%list
  /\ MockData.data scan = d
  /\ MockData.userId scan = uid
  /\ MockData.mockUsers st' = MockData.mockUsers st
  /\ MockData.userIdCounter st' = MockData.userIdCounter st
  /\ MockData.scanIdCounter st' = MockData.scanIdCounter st + 1.
Proof. simpl. repeat split. Qed.

Lemma records_of_add (c d : string) (uid : JsValue) (now : Z)
    (st : MockData.Store) :
  records_of c (snd (MockData.addScannedCode d uid now st))
  = (records_of c st + (if String.eqb d c then 1 else 0))%nat.
Proof.
  unfold records_of. simpl. rewrite List.filter_app, List.length_app. simpl.
  destruct (String.eqb d c); reflexivity.
Qed.

Lemma scanned_after_add (c d : string) (uid : JsValue) (now : Z)
    (st : MockData.Store) :
  MockData.isCodeAlreadyScanned c (snd (MockData.addScannedCode d uid now st))
  = MockData.isCodeAlreadyScanned c st || String.eqb d c.
Proof.
  unfold MockData.isCodeAlreadyScanned. simpl. rewrite List.existsb_app.
  simpl. rewrite orb_false_r. reflexivity.
Qed.

Lemma signup_ledger (username0 email0 password0 : string)
    (st : MockData.Store) :
  MockData.scannedCodes
    (snd (AuthService.signup username0 email0 password0 st))
  = MockData.scannedCodes st.
Proof.
  unfold AuthService.signup.
  destruct (MockData.findUserByUsername username0 st); [reflexivity|].
  destruct (MockData.findUserByEmail email0 st); reflexivity.
Qed.

(** Every operation but [submitScan] leaves the ledger as it is. *)
Lemma step_other_ledger (a : Action) (w : World) :
  (forall d now, a <> ASubmit d now) ->
  MockData.scannedCodes (store (snd (step a w)))
  = MockData.scannedCodes (store w).
Proof.
  intros N. destruct a as [u p now|u e p| |net|d now]; simpl.
  - destruct (AuthService.login u p now (store w) (localStorage w)).
    reflexivity.
  - pose proof (signup_ledger u e p (store w)) as S.
    destruct (AuthService.signup u e p (store w)). exact S.
  - reflexivity.
  - destruct (AuthService.validateToken net (localStorage w)) as [[r ls'] q].
    reflexivity.
  - exfalso. exact (N d now eq_refl).
Qed.

(** What a [submitScan] step does, by the three outcomes. *)
Lemma step_submit (d : string) (now : Z) (w : World) :
  (authenticated w = false
   /\ step (ASubmit d now) w = (OSubmit ScannerService.not_authenticated, w))
  \/ (authenticated w = true
      /\ MockData.isCodeAlreadyScanned d (store w) = true
      /\ step (ASubmit d now) w = (OSubmit ScannerService.duplicate_response, w))
  \/ (authenticated w = true
      /\ MockData.isCodeAlreadyScanned d (store w) = false
      /\ let added :=
           MockData.addScannedCode d
             (get_prop (AuthService.getCurrentUser (localStorage w)) "id")
             now (store w) in
         step (ASubmit d now) w
         = (OSubmit (ScannerService.accepted_response (fst added)),
            {| store := snd added; localStorage := localStorage w |})).
Proof.
  unfold authenticated. destruct w as [st ls]. cbn [store localStorage step].
  destruct (submitScan_cases d now st ls) as [[A E]|[[A [S E]]|[A [S E]]]];
    rewrite E.
  - left. auto.
  - right; left. auto.
  - right; right. auto.
Qed.

(** ** Runs *)

Lemma run_step (a : Action) (rest : list Action) (w : World) :
  run (a :: rest) w
  = ({| before := w; action := a; outcome := fst (step a w) |}
       :: fst (run rest (snd (step a w))),
     snd (run rest (snd (step a w)))).
Proof.
  cbn [run]. destruct (step a w) as [o w1]. cbn [fst snd].
  destruct (run rest w1). reflexivity.
Qed.

Lemma action_cases (a : Action) :
  (exists d now, a = ASubmit d now) \/ (forall d now, a <> ASubmit d now).
Proof.
  destruct a; try (right; intros; discriminate). left. eauto.
Qed.

Lemma submits_cons_other (c : string) (e : Entry) (entries : list Entry) :
  (forall d now, action e <> ASubmit d now) ->
  authenticated_submits c (e :: entries) = authenticated_submits c entries.
Proof.
  intros N. simpl. destruct (action e) as [| | | |d now]; try reflexivity.
  exfalso. exact (N d now eq_refl).
Qed.

Lemma ledger_ext (c : string) (st1 st2 : MockData.Store) :
  MockData.scannedCodes st1 = MockData.scannedCodes st2 ->
  MockData.isCodeAlreadyScanned c st1 = MockData.isCodeAlreadyScanned c st2
  /\ records_of c st1 = records_of c st2
  /\ ledger_codes st1 = ledger_codes st2.
Proof.
  intros E. unfold MockData.isCodeAlreadyScanned, records_of, ledger_codes.
  rewrite E. auto.
Qed.

(** Once the code is in the ledger, every submit of it by an authenticated
    user is answered as a duplicate and the code keeps its records. *)
Lemma run_scanned (c : string) (acts : list Action) :
  forall w,
    MockData.isCodeAlreadyScanned c (store w) = true ->
    Forall (fun r => r = ScannerService.duplicate_response)
      (authenticated_submits c (fst (run acts w)))
    /\ records_of c (store (snd (run acts w))) = records_of c (store w).
Proof.
  induction acts as [|a rest IH]; intros w S.
  - simpl. split; [constructor | reflexivity].
  - rewrite run_step. cbn [fst snd].
    destruct (action_cases a) as [[d [now ->]]|N].
    + destruct (step_submit d now w) as [[A E]|[[A [D E]]|[A [D E]]]];
        rewrite E; cbn [fst snd].
      * destruct (IH w S) as [F R]. split; [|exact R].
        simpl. rewrite A, andb_false_r. exact F.
      * destruct (IH w S) as [F R]. split; [|exact R].
        simpl. rewrite A, andb_true_r.
        destruct (String.eqb d c); [constructor; [reflexivity|exact F]|exact F].
      * assert (Hdc : String.eqb d c = false).
        { destruct (String.eqb_spec d c) as [->|]; [congruence|reflexivity]. }
        set (added :=
               MockData.addScannedCode d
                 (get_prop (AuthService.getCurrentUser (localStorage w)) "id")
                 now (store w)).
        set (w1 := {| store := snd added; localStorage := localStorage w |}).
        assert (S1 : MockData.isCodeAlreadyScanned c (store w1) = true).
        { unfold w1, added. cbn [store]. rewrite scanned_after_add, S.
          reflexivity. }
        destruct (IH w1 S1) as [F R]. split.
        -- simpl. rewrite Hdc. exact F.
        -- rewrite R. unfold w1, added. cbn [store].
           rewrite records_of_add, Hdc. lia.
    + pose proof (step_other_ledger a w N) as L.
      destruct (ledger_ext c _ _ L) as [L1 [L2 _]].
      assert (S1 : MockData.isCodeAlreadyScanned c (store (snd (step a w)))
                   = true) by congruence.
      destruct (IH _ S1) as [F R]. split.
      * rewrite submits_cons_other by exact N. exact F.
      * congruence.
Qed.

(** While the code is not in the ledger: either no authenticated user
    submits it and it stays out, or the first such submit is accepted,
    all later ones are duplicates, and the ledger ends with one record. *)
Lemma run_unscanned (c : string) (acts : list Action) :
  forall w,
    MockData.isCodeAlreadyScanned c (store w) = false ->
    (authenticated_submits c (fst (run acts w)) = []
     /\ MockData.isCodeAlreadyScanned c (store (snd (run acts w))) = false)
    \/ (exists scan rest,
          authenticated_submits c (fst (run acts w))
          = ScannerService.accepted_response scan :: rest
          /\ MockData.data scan = c
          /\ Forall (fun r => r = ScannerService.duplicate_response) rest
          /\ records_of c (store (snd (run acts w))) = 1%nat).
Proof.
  induction acts as [|a rest IH]; intros w S.
  - left. simpl. auto.
  - rewrite run_step. cbn [fst snd].
    destruct (action_cases a) as [[d [now ->]]|N].
    + destruct (step_submit d now w) as [[A E]|[[A [D E]]|[A [D E]]]];
        rewrite E; cbn [fst snd].
      * simpl. rewrite A, andb_false_r. exact (IH w S).
      * assert (Hdc : String.eqb d c = false).
        { destruct (String.eqb_spec d c) as [->|]; [congruence|reflexivity]. }
        simpl. rewrite Hdc. exact (IH w S).
      * set (added :=
               MockData.addScannedCode d
                 (get_prop (AuthService.getCurrentUser (localStorage w)) "id")
                 now (store w)).
        set (w1 := {| store := snd added; localStorage := localStorage w |}).
        destruct (String.eqb_spec d c) as [->|Hne].
        -- right. exists (fst added), (authenticated_submits c (fst (run rest w1))).
           assert (S1 : MockData.isCodeAlreadyScanned c (store w1) = true).
           { unfold w1, added. cbn [store]. rewrite scanned_after_add.
             rewrite String.eqb_refl. apply orb_true_r. }
           destruct (run_scanned c rest w1 S1) as [F R].
           split; [|split; [|split]].
           ++ simpl. rewrite String.eqb_refl, A. reflexivity.
           ++ reflexivity.
           ++ exact F.
           ++ rewrite R. unfold w1, added. cbn [store].
              rewrite records_of_add, String.eqb_refl.
              rewrite (records_of_unscanned c (store w) S). reflexivity.
        -- assert (Hdc : String.eqb d c = false).
           { destruct (String.eqb_spec d c); [contradiction|reflexivity]. }
           assert (S1 : MockData.isCodeAlreadyScanned c (store w1) = false).
           { unfold w1, added. cbn [store]. rewrite scanned_after_add, S, Hdc.
             reflexivity. }
           simpl. rewrite Hdc. exact (IH w1 S1).
    + pose proof (step_other_ledger a w N) as L.
      destruct (ledger_ext c _ _ L) as [L1 _].
      assert (S1 : MockData.isCodeAlreadyScanned c (store (snd (step a w)))
                   = false) by congruence.
      rewrite submits_cons_other by exact N. exact (IH _ S1).
Qed.

Lemma step_keeps_codes_unique (a : Action) (w : World) :
  List.NoDup (ledger_codes (store w)) ->
  List.NoDup (ledger_codes (store (snd (step a w)))).
Proof.
  intros U. destruct (action_cases a) as [[d [now ->]]|N].
  - destruct (step_submit d now w) as [[A E]|[[A [D E]]|[A [D E]]]];
      rewrite E; cbn [snd]; try exact U.
    cbn [store]. unfold ledger_codes. simpl.
    rewrite List.map_app. simpl.
    apply List.NoDup_app; [exact U | repeat constructor; simpl; tauto |].
    intros x Hin [<-|[]]. exact (unscanned_not_in _ _ D Hin).
  - destruct (ledger_ext "" _ _ (step_other_ledger a w N)) as [_ [_ L]].
    rewrite L. exact U.
Qed.

Lemma run_keeps_codes_unique (acts : list Action) :
  forall w,
    List.NoDup (ledger_codes (store w)) ->
    List.NoDup (ledger_codes (store (snd (run acts w)))).
Proof.
  induction acts as [|a rest IH]; intros w U; [exact U|].
  rewrite run_step. cbn [snd]. apply IH, step_keeps_codes_unique, U.
Qed.

Lemma Forall_eq_repeat {A : Type} (x : A) (l : list A) :
  Forall (fun y => y = x) l -> l = List.repeat x (length l).
Proof.
  induction 1 as [|y l -> _ IH]; simpl; [reflexivity|]. f_equal. exact IH.
Qed.

(** C1. Over the life of a ledger (any page load, any operations after
    it) and for any code: the responses to the submits of that code made
    by authenticated users are either none, the ledger then holding no
    record of the code, or one acceptance followed by duplicates only, the
    ledger then holding exactly one record of the code; and the codes of
    the ledger's records are pairwise distinct, whoever owns them. *)
Theorem ledger_uniqueness (ls : Storage) (acts : list Action) (c : string) :
  let entries := fst (run acts (init_world ls)) in
  let final := store (snd (run acts (init_world ls))) in
  ((authenticated_submits c entries = [] /\ records_of c final = 0%nat)
   \/ (exists scan n,
         authenticated_submits c entries
         = ScannerService.accepted_response scan
             :: List.repeat ScannerService.duplicate_response n
         /\ MockData.data scan = c
         /\ records_of c final = 1%nat))
  /\ List.NoDup (ledger_codes final).
Proof.
  intros entries final. split.
  - destruct (run_unscanned c acts (init_world ls) eq_refl)
      as [[E S]|[scan [rest [E [D [F R]]]]]].
    + left. split; [exact E | exact (records_of_unscanned _ _ S)].
    + right. exists scan, (length rest). split; [|split; assumption].
      unfold entries. rewrite E. f_equal. apply Forall_eq_repeat, F.
  - apply run_keeps_codes_unique. constructor.
Qed.

(** C5. A [submitScan] step changes nothing but the ledger. When the
    response is an acceptance the caller was authenticated, the code was
    not in the ledger, and the ledger gained exactly one record, for that
    code, with the scan counter advanced by one; when it is a duplicate or
    a rejection the world is unchanged, the caller being authenticated in
    the first case and not in the second. *)
Theorem submit_single_mutation (d : string) (now : Z) (w : World) :
  exists r w',
    step (ASubmit d now) w = (OSubmit r, w')
    /\ localStorage w' = localStorage w
    /\ MockData.mockUsers (store w') = MockData.mockUsers (store w)
    /\ MockData.userIdCounter (store w') = MockData.userIdCounter (store w)
    /\ match outcome_of r with
       | Accepted =>
           authenticated w = true
           /\ MockData.isCodeAlreadyScanned d (store w) = false
           /\ exists scan,
               MockData.scannedCodes (store w')
               = (MockData.scannedCodes (store w) ++ [scan])%list
               /\ MockData.data scan = d
               /\ ScannerService.scanId r = Some (MockData.scan_id scan)
               /\ MockData.scanIdCounter (store w')
                  = MockData.scanIdCounter (store w) + 1
       | Duplicate =>
           authenticated w = true
           /\ MockData.isCodeAlreadyScanned d (store w) = true
           /\ w' = w
       | Rejected =>
           authenticated w = false
           /\ r = ScannerService.not_authenticated
           /\ w' = w
       end.
Proof.
  destruct (step_submit d now w) as [[A E]|[[A [D E]]|[A [D E]]]].
  - exists ScannerService.not_authenticated, w. rewrite E. simpl.
    repeat split; assumption.
  - exists ScannerService.duplicate_response, w. rewrite E. simpl.
    repeat split; assumption.
  - eexists _, _. split; [exact E|]. cbn [store localStorage].
    repeat split; try assumption.
    eexists. repeat split.
Qed.

(** ** The scanner page *)

Lemma ScanState_eqb_eq (a b : ScannerPage.ScanState) :
  ScannerPage.ScanState_eqb a b = true <-> a = b.
Proof. destruct a, b; simpl; split; congruence. Qed.

(** A callback made by a render that was not scanning does stop at its
    guard. *)
Lemma start_discards (captured : ScannerPage.ScanState) (ev : option string)
    (s : ScannerPage.ScannerState) :
  captured <> ScannerPage.Scanning ->
  ScannerPage.handleScanUpdate_start captured ev s = (s, None).
Proof.
  intros N. unfold ScannerPage.handleScanUpdate_start.
  destruct (ScannerPage.ScanState_eqb captured ScannerPage.Scanning) eqn:E;
    [|reflexivity].
  apply ScanState_eqb_eq in E. contradiction.
Qed.

(** The camera is only ever handed a callback made while scanning, and
    the first render hands it one. *)
Lemma handler_for_camera_scanning (s : ScannerPage.ScannerState)
    (captured : ScannerPage.ScanState) :
  ScannerPage.handler_for_camera s = Some captured ->
  captured = ScannerPage.camera_captured.
Proof.
  unfold ScannerPage.handler_for_camera, ScannerPage.render.
  cbn [ScannerPage.scannerView].
  destruct (ScannerPage.ScanState_eqb (ScannerPage.scanState s)
              ScannerPage.Scanning) eqn:E; [|discriminate].
  apply ScanState_eqb_eq in E.
  destruct (negb (str_truthy (ScannerPage.cameraError s))); [|discriminate].
  cbn [andb]. intros H. injection H as <-. exact E.
Qed.

Lemma handler_for_camera_initial :
  ScannerPage.handler_for_camera ScannerPage.initial
  = Some ScannerPage.camera_captured.
Proof. reflexivity. Qed.

Lemma resume_not_scanning (d : string)
    (response : option ScannerService.ScanSubmitResponse)
    (s : ScannerPage.ScannerState) :
  ScannerPage.scanState (ScannerPage.handleScanUpdate_resume d response s)
  <> ScannerPage.Scanning.
Proof.
  unfold ScannerPage.handleScanUpdate_resume.
  destruct response as [r|]; [|discriminate].
  destruct (ScannerService.success r); [discriminate|].
  destruct (ScannerService.duplicate r) as [[|]|]; discriminate.
Qed.

Lemma ui_run_step (e : ScannerPage.UiEvent) (rest : list ScannerPage.UiEvent)
    (s : ScannerPage.ScannerState) :
  ScannerPage.ui_run (e :: rest) s
  = (fst (ScannerPage.ui_run rest (fst (ScannerPage.ui_step e s))),
     (option_list (snd (ScannerPage.ui_step e s))
      ++ snd (ScannerPage.ui_run rest (fst (ScannerPage.ui_step e s))))%list).
Proof.
  cbn [ScannerPage.ui_run]. destruct (ScannerPage.ui_step e s) as [s1 call].
  cbn [fst snd]. destruct (ScannerPage.ui_run rest s1). reflexivity.
Qed.

(** C2, which the code does not keep. The guard of [handleScanUpdate]
    tests the [scanState] its callback captured, and the callback the
    camera holds captured scanning. So a decoded text delivered in any
    state of the page, processing and the terminal states included, is not
    discarded: it writes the state cells again and starts a [submitScan]
    call. On the freshly mounted page two decoded texts in a row, the second
    arriving while the page is processing, start two calls; and after any
    events that leave the page outside scanning, the next decoded text
    starts one more call. *)
Theorem camera_update_not_discarded (s : ScannerPage.ScannerState)
    (text : string) (events : list ScannerPage.UiEvent) :
  ScannerPage.ui_step (ScannerPage.Decoded (Some text)) s
  = ({| ScannerPage.scanState := ScannerPage.Processing;
        ScannerPage.scanResult := ScannerPage.scanResult s;
        ScannerPage.stopStream := true;
        ScannerPage.cameraError := ScannerPage.cameraError s;
        ScannerPage.snackbarOpen := ScannerPage.snackbarOpen s |},
     Some text)
  /\ ScannerPage.scanState
       (fst (ScannerPage.ui_step (ScannerPage.Decoded (Some text))
               ScannerPage.initial))
     = ScannerPage.Processing
  /\ ScannerPage.ui_run
       [ScannerPage.Decoded (Some text); ScannerPage.Decoded (Some text)]
       ScannerPage.initial
     = ({| ScannerPage.scanState := ScannerPage.Processing;
           ScannerPage.scanResult := None;
           ScannerPage.stopStream := true;
           ScannerPage.cameraError := None;
           ScannerPage.snackbarOpen := false |},
        [text; text])
  /\ snd (ScannerPage.ui_run (events ++ [ScannerPage.Decoded (Some text)])%list s)
     = (snd (ScannerPage.ui_run events s) ++ [text])%list.
Proof.
  split; [reflexivity|]. split; [reflexivity|]. split; [reflexivity|].
  revert s. induction events as [|e rest IH]; intros s.
  - reflexivity.
  - cbn [app]. rewrite !ui_run_step. cbn [snd]. rewrite IH.
    apply List.app_assoc.
Qed.

(** ** Login and the session it persists *)

Lemma token_has_prefix (userId now : Z) :
  String.prefix "mock-jwt-token-" (MockData.generateMockToken userId now)
  = true.
Proof.
  unfold MockData.generateMockToken. simpl.
  destruct (num_to_string userId +:+ "-" +:+ num_to_string now); reflexivity.
Qed.

Lemma token_nonempty (userId now : Z) :
  MockData.generateMockToken userId now <> "".
Proof. unfold MockData.generateMockToken. simpl. discriminate. Qed.

Lemma login_success (username0 password0 : string) (now : Z)
    (st : MockData.Store) (ls : Storage) (user0 : MockData.MockUser) :
  MockData.validateCredentials username0 password0 st = Some user0 ->
  let token0 := MockData.generateMockToken (MockData.id user0) now in
  let authUser :=
    {| AuthService.id := MockData.id user0;
       AuthService.username := MockData.username user0;
       AuthService.email := MockData.email user0 |} in
  AuthService.login username0 password0 now st ls
  = ({| AuthService.success := true; AuthService.token := Some token0;
        AuthService.user := Some authUser; AuthService.error := None |},
     <[ApiConfig.USER_DATA :=
         JSON_stringify (AuthService.AuthUser_value authUser)]>
       (<[ApiConfig.AUTH_TOKEN := token0]> ls)).
Proof.
  intros E. unfold AuthService.login. rewrite E. reflexivity.
Qed.

Lemma login_session (token0 ud : string) (ls : Storage) :
  persisted_session
    (<[ApiConfig.USER_DATA := ud]> (<[ApiConfig.AUTH_TOKEN := token0]> ls))
  = (Some token0, Some ud).
Proof.
  unfold persisted_session. f_equal.
  - rewrite lookup_insert_ne by (symmetry; apply keys_distinct).
    apply lookup_insert_eq.
  - apply lookup_insert_eq.
Qed.

Lemma validateToken_mock_valid
    (net : AuthService.Request -> AuthService.FetchOutcome) (ls : Storage)
    (tok ud : string) (v : JsValue) :
  persisted_session ls = (Some tok, Some ud) ->
  tok <> "" -> ud <> "" ->
  String.prefix "mock-jwt-token-" tok = true ->
  JSON_parse ud = Some v ->
  AuthService.validateToken_with true net ls
  = ({| AuthService.valid := true; AuthService.valid_user := v |}, ls, []).
Proof.
  intros S Htok Hud P J. unfold persisted_session in S.
  injection S as S1 S2.
  unfold AuthService.validateToken_with, getItem. rewrite S1, S2.
  apply str_truthy_Some in Htok. apply str_truthy_Some in Hud.
  rewrite Htok, Hud, P, J. reflexivity.
Qed.

(** C4. When [login("demo","demo123")] succeeds with identity [u], and
    [JSON.parse] reads back what [JSON.stringify] printed for [u] (and
    throws on the empty text), then [validateToken] over the storage that
    [login] left answers valid with the value of [u], unchanged storage
    and no request, and the mount effect of a fresh auth context
    installs that identity. *)
Theorem session_round_trip (now : Z) (st : MockData.Store) (ls ls' : Storage)
    (net : AuthService.Request -> AuthService.FetchOutcome)
    (r : AuthService.LoginResponse) (u : AuthService.AuthUser) :
  JSON_parse "" = None ->
  JSON_parse (JSON_stringify (AuthService.AuthUser_value u))
  = Some (AuthService.AuthUser_value u) ->
  AuthService.login "demo" "demo123" now st ls = (r, ls') ->
  AuthService.success r = true ->
  AuthService.user r = Some u ->
  AuthService.validateToken net ls'
  = ({| AuthService.valid := true;
        AuthService.valid_user := AuthService.AuthUser_value u |}, ls', [])
  /\ fst (AuthContext.checkAuth net ls' AuthContext.initial)
     = {| AuthContext.user := AuthService.AuthUser_value u;
          AuthContext.isLoading := false |}.
Proof.
  intros Hempty Hround Hlogin Hok Hu.
  destruct (MockData.validateCredentials "demo" "demo123" st) as [user0|] eqn:C.
  - rewrite (login_success _ _ now st ls user0 C) in Hlogin.
    injection Hlogin as <- <-. cbn [AuthService.user] in Hu.
    injection Hu as <-.
    set (tok := MockData.generateMockToken (MockData.id user0) now).
    set (u := {| AuthService.id := MockData.id user0;
                 AuthService.username := MockData.username user0;
                 AuthService.email := MockData.email user0 |}) in *.
    set (ud := JSON_stringify (AuthService.AuthUser_value u)) in *.
    set (stored := <[ApiConfig.USER_DATA := ud]>
                     (<[ApiConfig.AUTH_TOKEN := tok]> ls)).
    assert (V : AuthService.validateToken net stored
                = ({| AuthService.valid := true;
                      AuthService.valid_user := AuthService.AuthUser_value u |},
                   stored, [])).
    { apply (validateToken_mock_valid net stored tok ud).
      - apply login_session.
      - apply token_nonempty.
      - intros Z0. rewrite Z0 in Hround. congruence.
      - apply token_has_prefix.
      - exact Hround. }
    split; [exact V|].
    unfold AuthContext.checkAuth. rewrite V. reflexivity.
  - rewrite (login_failure _ _ now st ls C) in Hlogin.
    injection Hlogin as <- <-. discriminate Hok.
Qed.

(** C6, as the code has it. A successful [login] issues two writes, the
    token first and the identity second: after the first the storage holds
    the new token beside whatever identity entry was there before; after
    the second, which is the storage [login] returns and the storage of
    the world after the login step, the persisted session is the new token
    with the new identity. *)
Theorem login_overwrites_session (username0 password0 : string) (now : Z)
    (w : World) (user0 : MockData.MockUser) :
  MockData.validateCredentials username0 password0 (store w) = Some user0 ->
  let token0 := MockData.generateMockToken (MockData.id user0) now in
  let authUser :=
    {| AuthService.id := MockData.id user0;
       AuthService.username := MockData.username user0;
       AuthService.email := MockData.email user0 |} in
  let ud := JSON_stringify (AuthService.AuthUser_value authUser) in
  let first := <[ApiConfig.AUTH_TOKEN := token0]> (localStorage w) in
  let second := <[ApiConfig.USER_DATA := ud]> first in
  storage_trace (AuthService.login_writes token0 authUser) (localStorage w)
  = [first; second]
  /\ persisted_session first
     = (Some token0, localStorage w !! ApiConfig.USER_DATA)
  /\ persisted_session second = (Some token0, Some ud)
  /\ snd (AuthService.login username0 password0 now (store w) (localStorage w))
     = second
  /\ step (ALogin username0 password0 now) w
     = (OLogin {| AuthService.success := true;
                  AuthService.token := Some token0;
                  AuthService.user := Some authUser;
                  AuthService.error := None |},
        {| store := store w; localStorage := second |}).
Proof.
  intros E token0 authUser ud first second.
  pose proof (login_success username0 password0 now (store w)
                (localStorage w) user0 E) as L.
  cbv zeta in L. fold token0 authUser ud first second in L.
  split; [reflexivity|]. split.
  - unfold persisted_session, first. f_equal.
    + apply lookup_insert_eq.
    + apply lookup_insert_ne, keys_distinct.
  - split; [apply login_session|]. split.
    + rewrite L. reflexivity.
    + cbn [step]. rewrite L. reflexivity.
Qed.

(** ** Validation in the two modes *)

Lemma validateToken_mock_local
    (net net' : AuthService.Request -> AuthService.FetchOutcome)
    (ls : Storage) :
  AuthService.validateToken_with true net ls
  = AuthService.validateToken_with true net' ls
  /\ snd (AuthService.validateToken_with true net ls) = []
  /\ snd (fst (AuthService.validateToken_with true net ls)) = ls.
Proof.
  unfold AuthService.validateToken_with.
  destruct (getItem ApiConfig.AUTH_TOKEN ls) as [tok|];
    destruct (getItem ApiConfig.USER_DATA ls) as [ud|]; auto.
  destruct (negb (str_truthy (Some tok)) || negb (str_truthy (Some ud)));
    auto.
  destruct (String.prefix "mock-jwt-token-" tok); auto.
  destruct (JSON_parse ud); auto.
Qed.

Ltac refute_valid :=
  cbn [negb orb fst AuthService.valid AuthService.not_valid]; discriminate.

Lemma validateToken_mock_valid_inv
    (net : AuthService.Request -> AuthService.FetchOutcome) (ls : Storage) :
  AuthService.valid (fst (fst (AuthService.validateToken_with true net ls)))
  = true ->
  exists tok ud,
    persisted_session ls = (Some tok, Some ud)
    /\ tok <> "" /\ ud <> ""
    /\ String.prefix "mock-jwt-token-" tok = true
    /\ JSON_parse ud
       = Some (AuthService.valid_user
                 (fst (fst (AuthService.validateToken_with true net ls)))).
Proof.
  unfold AuthService.validateToken_with, persisted_session, getItem.
  destruct (ls !! ApiConfig.AUTH_TOKEN) as [tok|];
    destruct (ls !! ApiConfig.USER_DATA) as [ud|];
    try refute_valid.
  destruct (str_truthy (Some tok)) eqn:T1;
    destruct (str_truthy (Some ud)) eqn:T2;
    try refute_valid.
  cbn [negb orb].
  destruct (String.prefix "mock-jwt-token-" tok) eqn:P; [|refute_valid].
  destruct (JSON_parse ud) as [v|] eqn:J; [|refute_valid].
  intros _. exists tok, ud. apply str_truthy_Some in T1, T2.
  repeat split; assumption.
Qed.

Lemma validateToken_real_valid_inv
    (net : AuthService.Request -> AuthService.FetchOutcome) (ls : Storage) :
  AuthService.valid (fst (fst (AuthService.validateToken_with false net ls)))
  = true ->
  exists tok,
    ls !! ApiConfig.AUTH_TOKEN = Some tok
    /\ collaborator_recognizes net tok = true
    /\ snd (AuthService.validateToken_with false net ls)
       = [AuthService.validate_request tok].
Proof.
  unfold AuthService.validateToken_with, collaborator_recognizes, getItem.
  destruct (ls !! ApiConfig.AUTH_TOKEN) as [tok|];
    destruct (ls !! ApiConfig.USER_DATA) as [ud|];
    try refute_valid.
  destruct (negb (str_truthy (Some tok)) || negb (str_truthy (Some ud)));
    [refute_valid|].
  destruct (net (AuthService.validate_request tok)) as [|[|] [data0|]] eqn:N;
    try refute_valid.
  destruct (AuthService.member data0 "user"); [|refute_valid].
  intros _. exists tok. rewrite N. repeat split.
Qed.

(** C3, as the code has it. Under the configured [USE_MOCK],
    [validateToken] never consults the validation endpoint: its answer is
    the same for every endpoint, it sends no request and leaves the storage
    alone, and it answers valid exactly when both entries are present and
    non-empty, the token starts with [mock-jwt-token-] and [JSON.parse]
    reads the identity entry, whose value it reports. Only with [USE_MOCK]
    off does a valid answer mean that the endpoint accepted the stored
    token, asked exactly once. *)
Theorem mock_validity_is_local
    (net net' : AuthService.Request -> AuthService.FetchOutcome)
    (ls : Storage) :
  AuthService.validateToken net ls = AuthService.validateToken net' ls
  /\ snd (AuthService.validateToken net ls) = []
  /\ snd (fst (AuthService.validateToken net ls)) = ls
  /\ (AuthService.valid (fst (fst (AuthService.validateToken net ls))) = true
      <-> exists tok ud v,
           persisted_session ls = (Some tok, Some ud)
           /\ tok <> "" /\ ud <> ""
           /\ String.prefix "mock-jwt-token-" tok = true
           /\ JSON_parse ud = Some v
           /\ AuthService.valid_user
                (fst (fst (AuthService.validateToken net ls))) = v)
  /\ (AuthService.valid
        (fst (fst (AuthService.validateToken_with false net ls))) = true
      -> exists tok,
           ls !! ApiConfig.AUTH_TOKEN = Some tok
           /\ collaborator_recognizes net tok = true
           /\ snd (AuthService.validateToken_with false net ls)
              = [AuthService.validate_request tok]).
Proof.
  unfold AuthService.validateToken. change ApiConfig.USE_MOCK with true.
  destruct (validateToken_mock_local net net' ls) as [A [B C]].
  split; [exact A|]. split; [exact B|]. split; [exact C|]. split.
  - split.
    + intros V.
      destruct (validateToken_mock_valid_inv net ls V)
        as [tok [ud [S [T [U [P J]]]]]].
      eexists tok, ud, _. repeat split; eassumption || reflexivity.
    + intros [tok [ud [v [S [T [U [P [J _]]]]]]]].
      rewrite (validateToken_mock_valid net ls tok ud v S T U P J).
      reflexivity.
  - apply validateToken_real_valid_inv.
Qed.

(** ** The seeded user *)

Lemma step_keeps_demo_first (a : Action) (w : World) :
  (exists others, MockData.mockUsers (store w) = MockData.demo_user :: others) ->
  exists others,
    MockData.mockUsers (store (snd (step a w))) = MockData.demo_user :: others.
Proof.
  intros [others E]. destruct a as [u p now|u e p| |net|d now]; cbn [step].
  - destruct (AuthService.login u p now (store w) (localStorage w)).
    exists others. exact E.
  - unfold AuthService.signup.
    destruct (MockData.findUserByUsername u (store w));
      [exists others; exact E|].
    destruct (MockData.findUserByEmail e (store w));
      [exists others; exact E|].
    cbn [snd store MockData.addMockUser MockData.mockUsers]. rewrite E.
    eexists. reflexivity.
  - exists others. exact E.
  - destruct (AuthService.validateToken net (localStorage w)) as [[r ls'] q].
    exists others. exact E.
  - destruct (step_submit d now w) as [[A S]|[[A [D S]]|[A [D S]]]];
      cbn [step] in S; rewrite S; exists others; exact E.
Qed.

(** In every reachable world the demo credentials are recognised, as the
    seeded user. *)
Lemma reachable_demo_login (w : World) :
  reachable w ->
  MockData.validateCredentials "demo" "demo123" (store w)
  = Some MockData.demo_user.
Proof.
  intros [ls [acts ->]].
  assert (I : exists others,
             MockData.mockUsers (store (snd (run acts (init_world ls))))
             = MockData.demo_user :: others).
  { generalize (init_world ls),
      (ex_intro (fun others =>
                   MockData.mockUsers (store (init_world ls))
                   = MockData.demo_user :: others) [] eq_refl).
    induction acts as [|a rest IH]; intros w0 I0; [exact I0|].
    rewrite run_step. cbn [snd]. apply IH, step_keeps_demo_first, I0. }
  destruct I as [others E]. unfold MockData.validateCredentials.
  rewrite E. reflexivity.
Qed.

End Properties.

(** * The properties on concrete inputs *)

(** Scenario A of the specification: the demo user logs in, submits a
    code, and submits it again. *)
Example scenario_A :
  List.map outcome
    (fst (@run Json.runtime
            [ALogin "demo" "demo123" 5; ASubmit "CODE-1" 6; ASubmit "CODE-1" 7]
            (init_world ∅)))
  = [OLogin {| AuthService.success := true;
               AuthService.token := Some "mock-jwt-token-1-5";
               AuthService.user := Some Scenario.demo_auth;
               AuthService.error := None |};
     OSubmit {| ScannerService.success := true;
                ScannerService.duplicate := None;
                ScannerService.message := Some "QR code scanned successfully";
                ScannerService.scanId := Some "scan-1";
                ScannerService.error := None |};
     OSubmit ScannerService.duplicate_response].
Proof. vm_compute. reflexivity. Qed.

(** What the second call costs the user: the demo user's page decodes a
    new code twice in a row; the first [submitScan] records it, the second
    is answered as a duplicate, and once both have settled the page shows
    the duplicate warning for the code it has just recorded. *)
Example double_update_ends_in_duplicate :
  let w := {| store := MockData.init_store;
              localStorage := Scenario.demo_storage |} in
  let page :=
    ScannerPage.ui_run
      [ScannerPage.Decoded (Some "CODE-1"); ScannerPage.Decoded (Some "CODE-1")]
      ScannerPage.initial in
  let first := @step Json.runtime (ASubmit "CODE-1" 6) w in
  let second := @step Json.runtime (ASubmit "CODE-1" 7) (snd first) in
  let settled :=
    ScannerPage.handleScanUpdate_resume "CODE-1"
      (Some ScannerService.duplicate_response)
      (ScannerPage.handleScanUpdate_resume "CODE-1"
         (Some {| ScannerService.success := true;
                  ScannerService.duplicate := None;
                  ScannerService.message := Some "QR code scanned successfully";
                  ScannerService.scanId := Some "scan-1";
                  ScannerService.error := None |})
         (fst page)) in
  snd page = ["CODE-1"; "CODE-1"]
  /\ fst first
     = OSubmit {| ScannerService.success := true;
                  ScannerService.duplicate := None;
                  ScannerService.message := Some "QR code scanned successfully";
                  ScannerService.scanId := Some "scan-1";
                  ScannerService.error := None |}
  /\ fst second = OSubmit ScannerService.duplicate_response
  /\ records_of "CODE-1" (store (snd second)) = 1%nat
  /\ ScannerPage.scanState settled = ScannerPage.Duplicate
  /\ ScannerPage.scanResult settled
     = Some {| ScannerPage.data := "CODE-1";
               ScannerPage.message := "This QR code has already been scanned" |}.
Proof. vm_compute. repeat split. Qed.

(** The round trip for the seeded user on the concrete runtime. *)
Lemma session_round_trip_witness :
  let logged :=
    @AuthService.login Json.runtime "demo" "demo123" 1762142400123
      MockData.init_store ∅ in
  Json.parse "" = None
  /\ Json.parse (Json.stringify (AuthService.AuthUser_value Scenario.demo_auth))
     = Some (AuthService.AuthUser_value Scenario.demo_auth)
  /\ AuthService.success (fst logged) = true
  /\ AuthService.user (fst logged) = Some Scenario.demo_auth
  /\ @AuthService.validateToken Json.runtime Scenario.reject_all (snd logged)
     = ({| AuthService.valid := true;
           AuthService.valid_user :=
             AuthService.AuthUser_value Scenario.demo_auth |},
        snd logged, []).
Proof.
  intros logged.
  split; [reflexivity|]. split; [reflexivity|].
  split; [reflexivity|]. split; [reflexivity|].
  apply (@session_round_trip Json.runtime 1762142400123 MockData.init_store
           ∅ (snd logged) Scenario.reject_all (fst logged) Scenario.demo_auth);
    reflexivity.
Defined.

(** The demo user logs in over the session alice left. *)
Lemma login_overwrites_session_witness :
  MockData.validateCredentials "demo" "demo123" (store Scenario.alice_world)
  = Some MockData.demo_user
  /\ persisted_session
       (snd (@AuthService.login Json.runtime "demo" "demo123" 2000
               (store Scenario.alice_world)
               (localStorage Scenario.alice_world)))
     = (Some "mock-jwt-token-1-2000",
        Some (Json.stringify (AuthService.AuthUser_value Scenario.demo_auth))).
Proof.
  split; [reflexivity|].
  destruct (@login_overwrites_session Json.runtime "demo" "demo123" 2000
              Scenario.alice_world MockData.demo_user eq_refl)
    as [_ [_ [S [L _]]]].
  rewrite L. exact S.
Defined.

(** Scenario B of the specification: a wrong password. *)
Lemma login_failure_persists_nothing_witness :
  MockData.validateCredentials "demo" "wrongpass" (store (init_world ∅)) = None
  /\ snd (@step Json.runtime (ALogin "demo" "wrongpass" 5) (init_world ∅))
     = init_world ∅.
Proof.
  split; [reflexivity|].
  apply (@login_failure_persists_nothing Json.runtime "demo" "wrongpass" 5
           (init_world ∅) AuthContext.initial).
  reflexivity.
Defined.

(** Scenario C of the specification: nothing persisted. *)
Lemma validateToken_no_session_witness :
  ((∅ : Storage) !! ApiConfig.AUTH_TOKEN = None
   \/ (∅ : Storage) !! ApiConfig.USER_DATA = None)
  /\ @AuthService.validateToken Json.runtime Scenario.reject_all ∅
     = (AuthService.not_valid, ∅, []).
Proof.
  split; [left; reflexivity|].
  apply (@validateToken_no_session Json.runtime true Scenario.reject_all ∅).
  left. reflexivity.
Defined.

(** An identity entry that is not JSON. *)
Lemma corrupt_identity_is_no_session_witness :
  Scenario.corrupt_storage !! ApiConfig.USER_DATA = Some "{not json"
  /\ Json.parse "{not json" = None
  /\ @AuthService.getCurrentUser Json.runtime Scenario.corrupt_storage = JNull
  /\ @ScannerService.submitScan Json.runtime "CODE-1" 7 MockData.init_store
       Scenario.corrupt_storage
     = (ScannerService.not_authenticated, MockData.init_store).
Proof.
  split; [reflexivity|]. split; [reflexivity|].
  destruct (@corrupt_identity_is_no_session Json.runtime
              Scenario.corrupt_storage "{not json" Scenario.reject_all
              "CODE-1" 7 MockData.init_store eq_refl eq_refl)
    as [G [_ [_ [_ [S _]]]]].
  split; [exact G | exact S].
Defined.

(** C3, as stated, fails: under the configured mock mode a stored token
    of the right shape that no login issued, beside an identity the
    credential store does not know, is reported valid with that identity,
    although no request is sent and the validation endpoint recognises no
    token at all. *)
Lemma forged_session_reported_valid :
  @AuthService.validateToken Json.runtime Scenario.reject_all
    Scenario.forged_storage
  = ({| AuthService.valid := true;
        AuthService.valid_user := Scenario.forged_user |},
     Scenario.forged_storage, [])
  /\ collaborator_recognizes Scenario.reject_all "mock-jwt-token-forged"
     = false
  /\ ~ @validity_from_collaborator Json.runtime Scenario.reject_all
        Scenario.forged_storage.
Proof.
  assert (V : @AuthService.validateToken Json.runtime Scenario.reject_all
                Scenario.forged_storage
              = ({| AuthService.valid := true;
                    AuthService.valid_user := Scenario.forged_user |},
                 Scenario.forged_storage, [])) by reflexivity.
  split; [exact V|]. split; [reflexivity|].
  unfold validity_from_collaborator. rewrite V. intros [F _].
  destruct (F eq_refl) as [tok [_ R]]. discriminate R.
Qed.

(** C6, as stated, fails: when the demo user logs in over alice's
    persisted session, the storage after the first of the two writes holds
    the demo user's new token beside alice's identity, a state that is
    neither the old session nor the new one, and [validateToken] run on it
    answers valid with alice's identity. *)
Lemma login_passes_through_mixed_session :
  let ls := localStorage Scenario.alice_world in
  let token0 := MockData.generateMockToken 1 2000 in
  let mid := exec_op ls (SetItem ApiConfig.AUTH_TOKEN token0) in
  fst (@AuthService.login Json.runtime "demo" "demo123" 2000
         (store Scenario.alice_world) ls)
  = {| AuthService.success := true; AuthService.token := Some token0;
       AuthService.user := Some Scenario.demo_auth;
       AuthService.error := None |}
  /\ In mid
       (storage_trace
          (@AuthService.login_writes Json.runtime token0 Scenario.demo_auth) ls)
  /\ persisted_session mid
     = (Some "mock-jwt-token-1-2000",
        Some (Json.stringify Scenario.alice_value))
  /\ fst (fst (@AuthService.validateToken Json.runtime Scenario.reject_all mid))
     = {| AuthService.valid := true;
          AuthService.valid_user := Scenario.alice_value |}
  /\ ~ @session_written_as_unit Json.runtime ls token0 Scenario.demo_auth.
Proof.
  intros ls token0 mid.
  split; [reflexivity|]. split; [left; reflexivity|].
  split; [reflexivity|]. split; [reflexivity|].
  unfold session_written_as_unit. intros F.
  apply Forall_inv in F. vm_compute in F.
  destruct F as [F|F]; discriminate F.
Qed.

(** * Further properties of the code *)

Section Coverage.
Context {rt : JsRuntime}.

(** ** How an operation changes the store *)

Lemma signup_cases (u e p : string) (st : MockData.Store) :
  (MockData.findUserByUsername u st <> None
   /\ AuthService.signup u e p st
      = ({| AuthService.signup_success := false;
            AuthService.signup_message := None;
            AuthService.signup_error := Some "Username already taken" |}, st))
  \/ (MockData.findUserByUsername u st = None
      /\ MockData.findUserByEmail e st <> None
      /\ AuthService.signup u e p st
         = ({| AuthService.signup_success := false;
               AuthService.signup_message := None;
               AuthService.signup_error := Some "Email already registered" |},
            st))
  \/ (MockData.findUserByUsername u st = None
      /\ MockData.findUserByEmail e st = None
      /\ AuthService.signup u e p st
         = ({| AuthService.signup_success := true;
               AuthService.signup_message :=
                 Some "Account created successfully. Please login.";
               AuthService.signup_error := None |},
            snd (MockData.addMockUser u e p st))).
Proof.
  unfold AuthService.signup.
  destruct (MockData.findUserByUsername u st) eqn:U.
  - left. split; [discriminate|reflexivity].
  - destruct (MockData.findUserByEmail e st) eqn:E.
    + right; left. repeat split; discriminate || reflexivity.
    + right; right. repeat split.
Qed.

Lemma step_store (a : Action) (w : World) :
  store (snd (step a w)) = store w
  \/ (exists u e p,
        a = ASignup u e p
        /\ MockData.findUserByUsername u (store w) = None
        /\ MockData.findUserByEmail e (store w) = None
        /\ store (snd (step a w)) = snd (MockData.addMockUser u e p (store w)))
  \/ (exists d now,
        a = ASubmit d now
        /\ authenticated w = true
        /\ MockData.isCodeAlreadyScanned d (store w) = false
        /\ store (snd (step a w))
           = snd (MockData.addScannedCode d
                    (get_prop (AuthService.getCurrentUser (localStorage w)) "id")
                    now (store w))).
Proof.
  destruct a as [u p now|u e p| |net|d now].
  - left. cbn [step].
    destruct (AuthService.login u p now (store w) (localStorage w)).
    reflexivity.
  - cbn [step].
    destruct (signup_cases u e p (store w)) as [[_ S]|[[_ [_ S]]|[U [E S]]]];
      rewrite S; cbn [snd store].
    + left. reflexivity.
    + left. reflexivity.
    + right; left. exists u, e, p. auto.
  - left. reflexivity.
  - left. cbn [step].
    destruct (AuthService.validateToken net (localStorage w)) as [[r ls'] q].
    reflexivity.
  - destruct (step_submit d now w) as [[A S]|[[A [D S]]|[A [D S]]]];
      rewrite S; cbn [snd store].
    + left. reflexivity.
    + left. reflexivity.
    + right; right. exists d, now. auto.
Qed.

(** A property of the store that both insertions keep holds along runs. *)
Lemma run_store_inv (P : MockData.Store -> Prop) :
  (forall u e p st,
      P st ->
      MockData.findUserByUsername u st = None ->
      MockData.findUserByEmail e st = None ->
      P (snd (MockData.addMockUser u e p st))) ->
  (forall d uid now st,
      P st ->
      MockData.isCodeAlreadyScanned d st = false ->
      P (snd (MockData.addScannedCode d uid now st))) ->
  forall acts w, P (store w) -> P (store (snd (run acts w))).
Proof.
  intros HU HS acts. induction acts as [|a rest IH]; intros w I; [exact I|].
  rewrite run_step. cbn [snd]. apply IH.
  destruct (step_store a w)
    as [E|[[u [e [p [_ [U [M E]]]]]]|[d [now [_ [_ [D E]]]]]]]; rewrite E.
  - exact I.
  - apply HU; assumption.
  - apply HS; assumption.
Qed.

Lemma NoDup_map_inj {A B : Type} (f : A -> B) (l : list A) :
  (forall x y, f x = f y -> x = y) -> List.NoDup l -> List.NoDup (List.map f l).
Proof.
  intros I. induction 1 as [|x l N _ IH]; simpl; constructor; [|exact IH].
  intros M. apply List.in_map_iff in M. destruct M as [y [E Y]].
  apply I in E. subst y. exact (N Y).
Qed.

Lemma find_none_not_in {A : Type} (key : A -> string) (k : string)
    (l : list A) :
  List.find (fun x => String.eqb (key x) k) l = None ->
  ~ In k (List.map key l).
Proof.
  induction l as [|x l IH]; simpl; [tauto|].
  destruct (String.eqb_spec (key x) k); [discriminate|].
  intros F [E|M]; [contradiction | exact (IH F M)].
Qed.

(** X1. In every world an execution context can reach, the user counter
    equals the number of users, the users carry the ids 1, 2, 3, ... in
    table order, and so no two users share an id. *)
Theorem user_ids_sequential (ls : Storage) (acts : list Action) :
  let st := store (snd (run acts (init_world ls))) in
  MockData.userIdCounter st = Z.of_nat (length (MockData.mockUsers st))
  /\ List.map MockData.id (MockData.mockUsers st)
     = List.map Z.of_nat (List.seq 1 (length (MockData.mockUsers st)))
  /\ List.NoDup (List.map MockData.id (MockData.mockUsers st)).
Proof.
  intros st.
  assert (I : MockData.userIdCounter st
              = Z.of_nat (length (MockData.mockUsers st))
              /\ List.map MockData.id (MockData.mockUsers st)
                 = List.map Z.of_nat
                     (List.seq 1 (length (MockData.mockUsers st)))).
  { unfold st.
    apply (run_store_inv
             (fun st =>
                MockData.userIdCounter st
                = Z.of_nat (length (MockData.mockUsers st))
                /\ List.map MockData.id (MockData.mockUsers st)
                   = List.map Z.of_nat
                       (List.seq 1 (length (MockData.mockUsers st))))).
    - intros u e p st0 [C M] _ _. cbn [snd MockData.addMockUser
        MockData.userIdCounter MockData.mockUsers].
      rewrite List.length_app, List.map_app. cbn [length List.map MockData.id].
      rewrite Nat.add_1_r, List.seq_S, List.map_app, <- M. cbn [List.map].
      split; [lia|]. do 2 f_equal. lia.
    - intros d uid now st0 I0 _. exact I0.
    - split; reflexivity. }
  destruct I as [C M]. split; [exact C|]. split; [exact M|].
  rewrite M. apply NoDup_map_inj; [intros x y; lia | apply List.seq_NoDup].
Qed.

(** X2. In every reachable world no two users share a username and no two
    share an email address. *)
Theorem usernames_and_emails_unique (ls : Storage) (acts : list Action) :
  let st := store (snd (run acts (init_world ls))) in
  List.NoDup (List.map MockData.username (MockData.mockUsers st))
  /\ List.NoDup (List.map MockData.email (MockData.mockUsers st)).
Proof.
  intros st. unfold st.
  apply (run_store_inv
           (fun st =>
              List.NoDup (List.map MockData.username (MockData.mockUsers st))
              /\ List.NoDup (List.map MockData.email (MockData.mockUsers st)))).
  - intros u e p st0 [NU NE] FU FE.
    cbn [snd MockData.addMockUser MockData.mockUsers].
    rewrite !List.map_app. cbn [List.map MockData.username MockData.email].
    split; apply List.NoDup_app; try assumption;
      try (repeat constructor; simpl; tauto).
    + intros x Hin [<-|[]].
      exact (find_none_not_in MockData.username _ _ FU Hin).
    + intros x Hin [<-|[]].
      exact (find_none_not_in MockData.email _ _ FE Hin).
  - intros d uid now st0 I0 _. exact I0.
  - split; repeat constructor; simpl; tauto.
Qed.

Lemma scan_label_inj (x y : nat) :
  "scan-" +:+ num_to_string (Z.of_nat x) = "scan-" +:+ num_to_string (Z.of_nat y) ->
  x = y.
Proof.
  intros E. apply (inj (String.append "scan-")) in E.
  unfold num_to_string in E. apply (inj (pretty : Z -> string)) in E. lia.
Qed.

(** X3. In every reachable world the scan counter equals the number of
    ledger records, the records carry the ids scan-1, scan-2, ... in
    ledger order, and so no two records share an id. *)
Theorem scan_ids_sequential (ls : Storage) (acts : list Action) :
  let st := store (snd (run acts (init_world ls))) in
  MockData.scanIdCounter st = Z.of_nat (length (MockData.scannedCodes st))
  /\ List.map MockData.scan_id (MockData.scannedCodes st)
     = List.map (fun i => "scan-" +:+ num_to_string (Z.of_nat i))
         (List.seq 1 (length (MockData.scannedCodes st)))
  /\ List.NoDup (List.map MockData.scan_id (MockData.scannedCodes st)).
Proof.
  intros st.
  assert (I : MockData.scanIdCounter st
              = Z.of_nat (length (MockData.scannedCodes st))
              /\ List.map MockData.scan_id (MockData.scannedCodes st)
                 = List.map (fun i => "scan-" +:+ num_to_string (Z.of_nat i))
                     (List.seq 1 (length (MockData.scannedCodes st)))).
  { unfold st.
    apply (run_store_inv
             (fun st =>
                MockData.scanIdCounter st
                = Z.of_nat (length (MockData.scannedCodes st))
                /\ List.map MockData.scan_id (MockData.scannedCodes st)
                   = List.map
                       (fun i => "scan-" +:+ num_to_string (Z.of_nat i))
                       (List.seq 1 (length (MockData.scannedCodes st))))).
    - intros u e p st0 I0 _ _. exact I0.
    - intros d uid now st0 [C M] _. cbn [snd MockData.addScannedCode
        MockData.scanIdCounter MockData.scannedCodes].
      rewrite List.length_app, List.map_app.
      cbn [length List.map MockData.scan_id].
      rewrite Nat.add_1_r, List.seq_S, List.map_app, <- M. cbn [List.map].
      split; [lia|]. do 4 f_equal. lia.
    - split; reflexivity. }
  destruct I as [C M]. split; [exact C|]. split; [exact M|].
  rewrite M. apply NoDup_map_inj; [apply scan_label_inj | apply List.seq_NoDup].
Qed.

(** ** The tables only grow *)

Lemma run_extends_tables (acts : list Action) (w : World) :
  exists users scans,
    MockData.mockUsers (store (snd (run acts w)))
    = (MockData.mockUsers (store w) ++ users)%list
    /\ MockData.scannedCodes (store (snd (run acts w)))
       = (MockData.scannedCodes (store w) ++ scans)%list.
Proof.
  apply (run_store_inv
           (fun st =>
              exists users scans,
                MockData.mockUsers st
                = (MockData.mockUsers (store w) ++ users)%list
                /\ MockData.scannedCodes st
                   = (MockData.scannedCodes (store w) ++ scans)%list)).
  - intros u e p st [users [scans [U S]]] _ _.
    cbn [snd MockData.addMockUser MockData.mockUsers MockData.scannedCodes].
    eexists (users ++ [_])%list, scans. rewrite U, S, List.app_assoc. auto.
  - intros d uid now st [users [scans [U S]]] _.
    cbn [snd MockData.addScannedCode MockData.mockUsers MockData.scannedCodes].
    eexists users, (scans ++ [_])%list. rewrite U, S, List.app_assoc. auto.
  - exists [], []. rewrite !List.app_nil_r. auto.
Qed.

Lemma run_counters_grow (acts : list Action) (w : World) :
  MockData.userIdCounter (store w)
  <= MockData.userIdCounter (store (snd (run acts w)))
  /\ MockData.scanIdCounter (store w)
     <= MockData.scanIdCounter (store (snd (run acts w))).
Proof.
  apply (run_store_inv
           (fun st =>
              MockData.userIdCounter (store w) <= MockData.userIdCounter st
              /\ MockData.scanIdCounter (store w) <= MockData.scanIdCounter st)).
  - intros u e p st [U S] _ _. cbn [snd MockData.addMockUser
      MockData.userIdCounter MockData.scanIdCounter]. lia.
  - intros d uid now st [U S] _. cbn [snd MockData.addScannedCode
      MockData.userIdCounter MockData.scanIdCounter]. lia.
  - lia.
Qed.

Lemma find_app {A : Type} (f : A -> bool) (l l' : list A) :
  List.find f (l ++ l')
  = match List.find f l with
    | Some x => Some x
    | None => List.find f l'
    end.
Proof.
  induction l as [|x l IH]; simpl; [reflexivity|].
  destruct (f x); [reflexivity | exact IH].
Qed.

(** X4. Whatever operations run, from whatever world: the user table and
    the ledger afterwards are the tables from before with entries appended
    (nothing is removed, changed or reordered), and neither counter goes
    down. *)
Theorem tables_append_only (acts : list Action) (w : World) :
  (exists users scans,
      MockData.mockUsers (store (snd (run acts w)))
      = (MockData.mockUsers (store w) ++ users)%list
      /\ MockData.scannedCodes (store (snd (run acts w)))
         = (MockData.scannedCodes (store w) ++ scans)%list)
  /\ MockData.userIdCounter (store w)
     <= MockData.userIdCounter (store (snd (run acts w)))
  /\ MockData.scanIdCounter (store w)
     <= MockData.scanIdCounter (store (snd (run acts w))).
Proof.
  split; [apply run_extends_tables | apply run_counters_grow].
Qed.

(** X5. Credentials that the store recognises stay recognised, as the
    same user, whatever operations run in between: a later [login] with
    them succeeds with that user's id, username and email. *)
Theorem credentials_stay_valid (u p : string) (x : MockData.MockUser)
    (acts : list Action) (w : World) (now : Z) :
  MockData.validateCredentials u p (store w) = Some x ->
  MockData.validateCredentials u p (store (snd (run acts w))) = Some x
  /\ fst (AuthService.login u p now (store (snd (run acts w)))
            (localStorage (snd (run acts w))))
     = {| AuthService.success := true;
          AuthService.token :=
            Some (MockData.generateMockToken (MockData.id x) now);
          AuthService.user :=
            Some {| AuthService.id := MockData.id x;
                    AuthService.username := MockData.username x;
                    AuthService.email := MockData.email x |};
          AuthService.error := None |}.
Proof.
  intros V.
  assert (V' : MockData.validateCredentials u p (store (snd (run acts w)))
               = Some x).
  { destruct (run_extends_tables acts w) as [users [scans [U _]]].
    unfold MockData.validateCredentials in *. rewrite U, find_app, V.
    reflexivity. }
  split; [exact V'|].
  rewrite (login_success u p now _ _ x V'). reflexivity.
Qed.

(** X6. For an authenticated caller [checkDuplicate] predicts
    [submitScan]: the submit is answered duplicate when the check says so
    and accepted otherwise, and after the submit the check says duplicate
    in either case. *)
Theorem check_agrees_with_submit (c : string) (now : Z)
    (st : MockData.Store) (ls : Storage) :
  truthy (AuthService.getCurrentUser ls) = true ->
  outcome_of (fst (ScannerService.submitScan c now st ls))
  = (if ScannerService.checkDuplicate c st then Duplicate else Accepted)
  /\ ScannerService.checkDuplicate c
       (snd (ScannerService.submitScan c now st ls)) = true.
Proof.
  intros A. unfold ScannerService.checkDuplicate.
  destruct (submitScan_cases c now st ls) as [[F _]|[[_ [D E]]|[_ [D E]]]].
  - cbv zeta in F. congruence.
  - rewrite E, D. split; [reflexivity|exact D].
  - rewrite E, D. cbn [fst snd]. split; [reflexivity|].
    rewrite scanned_after_add, String.eqb_refl. apply orb_true_r.
Qed.

(** X7. A code the ledger holds stays a duplicate whatever operations run:
    [checkDuplicate] keeps answering true and the code keeps exactly the
    records it had. *)
Theorem duplicate_stays_duplicate (c : string) (acts : list Action)
    (w : World) :
  ScannerService.checkDuplicate c (store w) = true ->
  ScannerService.checkDuplicate c (store (snd (run acts w))) = true
  /\ records_of c (store (snd (run acts w))) = records_of c (store w).
Proof.
  unfold ScannerService.checkDuplicate. intros D. split.
  - destruct (run_extends_tables acts w) as [users [scans [_ S]]].
    unfold MockData.isCodeAlreadyScanned in *.
    rewrite S, List.existsb_app, D. reflexivity.
  - apply (run_scanned c acts w D).
Qed.

(** ** Signing up *)

Lemma find_absent_by_username (u p : string) (l : list MockData.MockUser) :
  List.find (fun user => String.eqb (MockData.username user) u) l = None ->
  List.find
    (fun x => String.eqb (MockData.username x) u
              && String.eqb (MockData.password x) p) l = None.
Proof.
  induction l as [|x l IH]; simpl; [reflexivity|].
  destruct (String.eqb (MockData.username x) u); [discriminate|].
  exact IH.
Qed.

Lemma signup_success_inv (u e p : string) (st : MockData.Store) :
  AuthService.signup_success (fst (AuthService.signup u e p st)) = true ->
  MockData.findUserByUsername u st = None
  /\ MockData.findUserByEmail e st = None
  /\ snd (AuthService.signup u e p st) = snd (MockData.addMockUser u e p st).
Proof.
  destruct (signup_cases u e p st) as [[_ S]|[[_ [_ S]]|[U [E S]]]];
    rewrite S; cbn [fst snd AuthService.signup_success];
    [discriminate | discriminate | auto].
Qed.

(** X8. After a successful [signup], [login] with the same username and
    password succeeds (from any storage) as the new user: the id is the
    user counter before the signup plus one, the username and email are
    the ones signed up with. *)
Theorem signup_then_login (u e p : string) (now : Z) (st : MockData.Store)
    (ls : Storage) :
  AuthService.signup_success (fst (AuthService.signup u e p st)) = true ->
  fst (AuthService.login u p now (snd (AuthService.signup u e p st)) ls)
  = {| AuthService.success := true;
       AuthService.token :=
         Some (MockData.generateMockToken (MockData.userIdCounter st + 1) now);
       AuthService.user :=
         Some {| AuthService.id := MockData.userIdCounter st + 1;
                 AuthService.username := u;
                 AuthService.email := e |};
       AuthService.error := None |}.
Proof.
  intros S. destruct (signup_success_inv u e p st S) as [U [_ ->]].
  assert (V : MockData.validateCredentials u p
                (snd (MockData.addMockUser u e p st))
              = Some {| MockData.id := MockData.userIdCounter st + 1;
                        MockData.username := u; MockData.email := e;
                        MockData.password := p |}).
  { unfold MockData.validateCredentials.
    cbn [snd MockData.addMockUser MockData.mockUsers].
    rewrite find_app, (find_absent_by_username u p _ U).
    cbn [List.find MockData.username MockData.password].
    rewrite !String.eqb_refl. reflexivity. }
  rewrite (login_success u p now _ ls _ V). reflexivity.
Qed.

(** X9. After a successful [signup], the username and the email are
    taken: a further [signup] with that username fails with [Username
    already taken] whatever its email and password, one with that email
    under a free username fails with [Email already registered], and
    neither changes the store. *)
Theorem signup_rejects_taken (u e p u' e' p' : string) (st : MockData.Store) :
  AuthService.signup_success (fst (AuthService.signup u e p st)) = true ->
  let st' := snd (AuthService.signup u e p st) in
  AuthService.signup u e' p' st'
  = ({| AuthService.signup_success := false;
        AuthService.signup_message := None;
        AuthService.signup_error := Some "Username already taken" |}, st')
  /\ (MockData.findUserByUsername u' st' = None ->
      AuthService.signup u' e p' st'
      = ({| AuthService.signup_success := false;
            AuthService.signup_message := None;
            AuthService.signup_error := Some "Email already registered" |},
         st')).
Proof.
  intros S st'. destruct (signup_success_inv u e p st S) as [U [E R]].
  assert (FU : MockData.findUserByUsername u st' <> None).
  { unfold st'. rewrite R. unfold MockData.findUserByUsername in *.
    cbn [snd MockData.addMockUser MockData.mockUsers].
    rewrite find_app, U. cbn [List.find MockData.username].
    rewrite String.eqb_refl. discriminate. }
  assert (FE : MockData.findUserByEmail e st' <> None).
  { unfold st'. rewrite R. unfold MockData.findUserByEmail in *.
    cbn [snd MockData.addMockUser MockData.mockUsers].
    rewrite find_app, E. cbn [List.find MockData.email].
    rewrite String.eqb_refl. discriminate. }
  split.
  - destruct (signup_cases u e' p' st') as [[_ C]|[[N _]|[N _]]];
      [exact C | contradiction | contradiction].
  - intros F.
    destruct (signup_cases u' e p' st') as [[N _]|[[_ [_ C]]|[_ [N _]]]];
      [contradiction | exact C | contradiction].
Qed.

(** ** Sessions and their readers *)

Lemma getCurrentUser_parsed (ls : Storage) (ud : string) (v : JsValue) :
  ls !! ApiConfig.USER_DATA = Some ud -> ud <> "" -> JSON_parse ud = Some v ->
  AuthService.getCurrentUser ls = v.
Proof.
  intros E N P. unfold AuthService.getCurrentUser, getItem. rewrite E.
  apply str_truthy_Some in N. rewrite N, P. reflexivity.
Qed.

(** X10. After [logout] every reader of the session finds none: no token,
    no auth header, no current user; [validateToken] (in either mode)
    answers not valid without a request; [submitScan] and [getScanHistory]
    answer not authenticated and leave the store alone; the auth context is
    unauthenticated and stays so when the application is loaded again over
    the storage that [logout] left. *)
Theorem logout_ends_session (ls : Storage) (st : MockData.Store)
    (d : string) (now : Z) (use_mock : bool)
    (net : AuthService.Request -> AuthService.FetchOutcome)
    (s : AuthContext.AuthState) :
  let ls' := AuthService.logout ls in
  AuthService.getToken ls' = None
  /\ ScannerService.getAuthHeader ls' = []
  /\ AuthService.getCurrentUser ls' = JNull
  /\ AuthService.validateToken_with use_mock net ls'
     = (AuthService.not_valid, ls', [])
  /\ ScannerService.submitScan d now st ls'
     = (ScannerService.not_authenticated, st)
  /\ ScannerService.getScanHistory st ls'
     = {| ScannerService.history_success := false;
          ScannerService.scans := None;
          ScannerService.history_error := Some "User not authenticated" |}
  /\ AuthContext.isAuthenticated (fst (AuthContext.logout ls s)) = false
  /\ AuthContext.isAuthenticated
       (fst (AuthContext.checkAuth net (snd (AuthContext.logout ls s))
               AuthContext.initial)) = false.
Proof.
  intros ls'. pose proof (logout_session ls) as S.
  unfold persisted_session in S. fold ls' in S. injection S as T U.
  pose proof (getCurrentUser_absent ls' U) as G.
  split; [exact T|].
  split; [unfold ScannerService.getAuthHeader, getItem; rewrite T; reflexivity|].
  split; [exact G|].
  split; [apply validateToken_absent; left; exact T|].
  split; [apply submitScan_unauthenticated; rewrite G; reflexivity|].
  split; [unfold ScannerService.getScanHistory; rewrite G; reflexivity|].
  split; [reflexivity|].
  cbn [AuthContext.logout snd]. fold ls'.
  unfold AuthContext.checkAuth, AuthService.validateToken.
  rewrite (validateToken_absent ApiConfig.USE_MOCK net ls' (or_introl T)).
  reflexivity.
Qed.

(** X11. After a successful [login], given that [JSON.parse] reads back
    what [JSON.stringify] printed for the identity (and throws on the empty
    text): [getToken] answers the token of the response, [getCurrentUser]
    the identity of the response, and a [submitScan] of a code the ledger
    does not hold is accepted, records the logged-in user's id as owner,
    and shows up as the last entry of that user's [getScanHistory]. *)
Theorem login_then_submit (u p d : string) (now now' : Z)
    (st : MockData.Store) (ls : Storage) (x : MockData.MockUser) :
  MockData.validateCredentials u p st = Some x ->
  let authUser :=
    {| AuthService.id := MockData.id x;
       AuthService.username := MockData.username x;
       AuthService.email := MockData.email x |} in
  JSON_parse "" = None ->
  JSON_parse (JSON_stringify (AuthService.AuthUser_value authUser))
  = Some (AuthService.AuthUser_value authUser) ->
  MockData.isCodeAlreadyScanned d st = false ->
  let ls' := snd (AuthService.login u p now st ls) in
  let submitted := ScannerService.submitScan d now' st ls' in
  AuthService.getToken ls' = AuthService.token (fst (AuthService.login u p now st ls))
  /\ AuthService.getCurrentUser ls' = AuthService.AuthUser_value authUser
  /\ outcome_of (fst submitted) = Accepted
  /\ (exists scan,
        MockData.scannedCodes (snd submitted)
        = (MockData.scannedCodes st ++ [scan])%list
        /\ MockData.data scan = d
        /\ MockData.userId scan = JNum (MockData.id x)
        /\ ScannerService.scans (ScannerService.getScanHistory (snd submitted) ls')
           = Some (MockData.getUserScanHistory (JNum (MockData.id x)) st
                   ++ [scan])%list).
Proof.
  intros V authUser Hempty Hround D ls' submitted.
  pose proof (login_success u p now st ls x V) as L. cbv zeta in L.
  fold authUser in L.
  assert (S : persisted_session ls'
              = (Some (MockData.generateMockToken (MockData.id x) now),
                 Some (JSON_stringify (AuthService.AuthUser_value authUser)))).
  { unfold ls'. rewrite L. apply login_session. }
  unfold persisted_session in S. injection S as T U.
  assert (N : JSON_stringify (AuthService.AuthUser_value authUser) <> "").
  { intros Z0. rewrite Z0 in Hround. congruence. }
  pose proof (getCurrentUser_parsed ls' _ _ U N Hround) as G.
  split; [rewrite L; exact T|]. split; [exact G|].
  destruct (submitScan_cases d now' st ls') as [[F _]|[[_ [F _]]|[_ [_ E]]]].
  - cbv zeta in F. rewrite G in F. discriminate F.
  - congruence.
  - rewrite G in E. change (get_prop (AuthService.AuthUser_value authUser) "id")
      with (JNum (MockData.id x)) in E.
    unfold submitted. rewrite E. cbn [fst snd]. split; [reflexivity|].
    eexists. split; [reflexivity|]. split; [reflexivity|].
    split; [reflexivity|].
    unfold ScannerService.getScanHistory. rewrite G.
    change (get_prop (AuthService.AuthUser_value authUser) "id")
      with (JNum (MockData.id x)).
    cbn [truthy negb ScannerService.scans]. f_equal.
    unfold MockData.getUserScanHistory.
    cbn [snd MockData.addScannedCode MockData.scannedCodes].
    rewrite List.filter_app. cbn [List.filter MockData.userId strict_eq].
    rewrite Z.eqb_refl. reflexivity.
Qed.

(** X12. [validateToken] in real-API mode, for a stored session with
    non-empty entries, by what the validation endpoint does. A response
    that is not [ok] clears both persisted entries, so that the next call
    finds no session and sends no request; a rejected [fetch], or an [ok]
    response whose body is not JSON, answers not valid but keeps the
    session; an [ok] response with a body other than [null] answers valid
    with the body's [user]. In every case exactly one request is sent, with
    the stored token as bearer. *)
Theorem real_validation_by_response
    (net net' : AuthService.Request -> AuthService.FetchOutcome)
    (ls : Storage) (tok ud : string) :
  persisted_session ls = (Some tok, Some ud) ->
  tok <> "" -> ud <> "" ->
  snd (AuthService.validateToken_with false net ls)
  = [{| AuthService.url := "https://api.example.com/auth/validate";
        AuthService.method := "GET";
        AuthService.headers := [("Authorization", "Bearer " +:+ tok)] |}]
  /\ match net (AuthService.validate_request tok) with
     | AuthService.FetchResponse false _ =>
         fst (AuthService.validateToken_with false net ls)
         = (AuthService.not_valid, AuthService.logout ls)
         /\ AuthService.validateToken_with false net' (AuthService.logout ls)
            = (AuthService.not_valid, AuthService.logout ls, [])
     | AuthService.FetchRejects | AuthService.FetchResponse true None =>
         fst (AuthService.validateToken_with false net ls)
         = (AuthService.not_valid, ls)
     | AuthService.FetchResponse true (Some data0) =>
         fst (AuthService.validateToken_with false net ls)
         = (match data0 with
            | JUndefined | JNull => AuthService.not_valid
            | _ => {| AuthService.valid := true;
                      AuthService.valid_user := get_prop data0 "user" |}
            end, ls)
     end.
Proof.
  intros S T U. unfold persisted_session in S. injection S as S1 S2.
  apply str_truthy_Some in T, U.
  assert (Again : AuthService.validateToken_with false net'
                    (AuthService.logout ls)
                  = (AuthService.not_valid, AuthService.logout ls, [])).
  { apply validateToken_absent. left.
    pose proof (logout_session ls) as L. unfold persisted_session in L.
    congruence. }
  assert (R : AuthService.validateToken_with false net ls
              = match net (AuthService.validate_request tok) with
                | AuthService.FetchResponse true (Some data0) =>
                    match AuthService.member data0 "user" with
                    | Some user0 =>
                        ({| AuthService.valid := true;
                            AuthService.valid_user := user0 |}, ls,
                         [AuthService.validate_request tok])
                    | None =>
                        (AuthService.not_valid, ls,
                         [AuthService.validate_request tok])
                    end
                | AuthService.FetchResponse true None =>
                    (AuthService.not_valid, ls,
                     [AuthService.validate_request tok])
                | AuthService.FetchResponse false _ =>
                    (AuthService.not_valid, AuthService.logout ls,
                     [AuthService.validate_request tok])
                | AuthService.FetchRejects =>
                    (AuthService.not_valid, ls,
                     [AuthService.validate_request tok])
                end).
  { unfold AuthService.validateToken_with, getItem.
    rewrite S1, S2, T, U. reflexivity. }
  rewrite R. clear R.
  destruct (net (AuthService.validate_request tok)) as [|[|] [data0|]];
    try (split; reflexivity).
  - destruct data0; split; reflexivity.
  - split; [reflexivity|]. split; [reflexivity|exact Again].
  - split; [reflexivity|]. split; [reflexivity|exact Again].
Qed.

(** X13. A stored identity that parses to a falsy value ([null], [0],
    [false] or the empty string) under a well-shaped token: the mock
    [validateToken] answers valid, with that value as user, yet the auth
    context stays unauthenticated, and [submitScan] answers not
    authenticated. *)
Theorem falsy_identity_valid_but_unauthenticated (ls : Storage)
    (tok ud : string) (v : JsValue) (d : string) (now : Z)
    (st : MockData.Store)
    (net : AuthService.Request -> AuthService.FetchOutcome) :
  persisted_session ls = (Some tok, Some ud) ->
  tok <> "" -> ud <> "" ->
  String.prefix "mock-jwt-token-" tok = true ->
  JSON_parse ud = Some v ->
  truthy v = false ->
  AuthService.validateToken net ls
  = ({| AuthService.valid := true; AuthService.valid_user := v |}, ls, [])
  /\ AuthContext.isAuthenticated
       (fst (AuthContext.checkAuth net ls AuthContext.initial)) = false
  /\ ScannerService.submitScan d now st ls
     = (ScannerService.not_authenticated, st).
Proof.
  intros S T U P J F.
  pose proof (validateToken_mock_valid net ls tok ud v S T U P J) as V.
  split; [exact V|]. split.
  - unfold AuthContext.checkAuth, AuthService.validateToken.
    change ApiConfig.USE_MOCK with true. rewrite V.
    cbn [AuthService.valid AuthService.valid_user andb]. rewrite F.
    reflexivity.
  - apply submitScan_unauthenticated.
    unfold persisted_session in S. injection S as _ S2.
    rewrite (getCurrentUser_parsed ls ud v S2 U J). exact F.
Qed.

(** X14. [submitScan] reads only the identity entry. With no token stored
    but an identity entry that parses to a truthy value, [validateToken]
    finds no session, while a [submitScan] of a code the ledger does not hold
    is accepted and records that value's [id] as owner. *)
Theorem submit_ignores_token (ls : Storage) (ud : string) (v : JsValue)
    (d : string) (now : Z) (st : MockData.Store)
    (net : AuthService.Request -> AuthService.FetchOutcome) :
  ls !! ApiConfig.AUTH_TOKEN = None ->
  ls !! ApiConfig.USER_DATA = Some ud ->
  ud <> "" ->
  JSON_parse ud = Some v ->
  truthy v = true ->
  MockData.isCodeAlreadyScanned d st = false ->
  AuthService.validateToken net ls = (AuthService.not_valid, ls, [])
  /\ outcome_of (fst (ScannerService.submitScan d now st ls)) = Accepted
  /\ exists scan,
       MockData.scannedCodes (snd (ScannerService.submitScan d now st ls))
       = (MockData.scannedCodes st ++ [scan])%list
       /\ MockData.data scan = d
       /\ MockData.userId scan = get_prop v "id".
Proof.
  intros T U N J F D.
  split; [apply (validateToken_absent ApiConfig.USE_MOCK); left; exact T|].
  pose proof (getCurrentUser_parsed ls ud v U N J) as G.
  destruct (submitScan_cases d now st ls) as [[A _]|[[_ [A _]]|[_ [_ E]]]].
  - cbv zeta in A. rewrite G in A. congruence.
  - congruence.
  - rewrite G in E. rewrite E. cbn [fst snd]. split; [reflexivity|].
    eexists. repeat split.
Qed.

(** ** Tokens *)

Lemma pretty_N_char_digit (x : N) : is_digit (pretty_N_char x) = true.
Proof. unfold pretty_N_char. repeat case_match; reflexivity. Qed.

Lemma pretty_N_go_digits (x : N) :
  forall s, all_digits s = true -> all_digits (pretty_N_go x s) = true.
Proof.
  induction (N.lt_wf_0 x) as [x _ IH]. intros s D.
  destruct (N.eq_dec x 0%N) as [->|P].
  - rewrite pretty_N_go_0. exact D.
  - rewrite pretty_N_go_step by lia. apply IH.
    + apply N.div_lt; lia.
    + cbn [all_digits]. rewrite pretty_N_char_digit. exact D.
Qed.

Lemma num_to_string_digits (n : Z) :
  0 <= n -> all_digits (num_to_string n) = true.
Proof.
  intros P. unfold num_to_string, pretty, pretty_Z.
  destruct n as [|q|q]; [reflexivity | | lia].
  unfold pretty, pretty_positive, pretty, pretty_N.
  destruct (decide (N.pos q = 0%N)); [reflexivity|].
  apply pretty_N_go_digits. reflexivity.
Qed.

Lemma append_cons (c : ascii) (s t : string) :
  String c s +:+ t = String c (s +:+ t).
Proof. reflexivity. Qed.

Lemma append_nil (t : string) : "" +:+ t = t.
Proof. reflexivity. Qed.

(** Two numerals, each followed by a dash: the first dash ends the numeral. *)
Lemma digits_dash_split (s1 : string) :
  forall s2 t1 t2,
    all_digits s1 = true -> all_digits s2 = true ->
    s1 +:+ "-" +:+ t1 = s2 +:+ "-" +:+ t2 ->
    s1 = s2 /\ t1 = t2.
Proof.
  induction s1 as [|c1 s1 IH]; intros [|c2 s2] t1 t2 D1 D2 E.
  - rewrite !append_nil, !append_cons, !append_nil in E.
    injection E as E. auto.
  - rewrite append_nil, !append_cons, append_nil in E.
    injection E as C _. subst c2. discriminate D2.
  - rewrite append_nil, !append_cons, append_nil in E.
    injection E as C _. subst c1. discriminate D1.
  - rewrite !(append_cons _ _ ("-" +:+ _)) in E. injection E as C E.
    cbn [all_digits] in D1, D2.
    apply andb_prop in D1. apply andb_prop in D2.
    destruct (IH s2 t1 t2 (proj2 D1) (proj2 D2) E) as [-> ->].
    subst c2. auto.
Qed.

Lemma token_inj (a b n m : Z) :
  0 <= a -> 0 <= b ->
  MockData.generateMockToken a n = MockData.generateMockToken b m ->
  a = b /\ n = m.
Proof.
  intros A B E. unfold MockData.generateMockToken in E.
  apply (inj (String.append "mock-jwt-token-")) in E.
  destruct (digits_dash_split _ _ _ _ (num_to_string_digits a A)
              (num_to_string_digits b B) E) as [E1 E2].
  unfold num_to_string in E1, E2.
  apply (inj (pretty : Z -> string)) in E1, E2. auto.
Qed.

(** X15. Tokens minted for user ids that are not negative differ whenever
    the user or the clock reading differs. *)
Theorem tokens_distinct (a b n m : Z) :
  0 <= a -> 0 <= b ->
  (a, n) <> (b, m) ->
  MockData.generateMockToken a n <> MockData.generateMockToken b m.
Proof.
  intros A B N E. destruct (token_inj a b n m A B E) as [-> ->].
  exact (N eq_refl).
Qed.

(** ** The scanner page *)

Lemma ui_run_fst (e : ScannerPage.UiEvent) (rest : list ScannerPage.UiEvent)
    (s : ScannerPage.ScannerState) :
  fst (ScannerPage.ui_run (e :: rest) s)
  = fst (ScannerPage.ui_run rest (fst (ScannerPage.ui_step e s))).
Proof. rewrite ui_run_step. reflexivity. Qed.

(** After a step a result is stored in every terminal state, and a
    stored camera error is not the empty text. *)
Lemma ui_step_keeps_shape (e : ScannerPage.UiEvent)
    (s : ScannerPage.ScannerState) :
  negb (ScannerPage.is_terminal (ScannerPage.scanState s))
  || present (ScannerPage.scanResult s) = true
  /\ str_truthy (ScannerPage.cameraError s)
     = present (ScannerPage.cameraError s) ->
  negb (ScannerPage.is_terminal
          (ScannerPage.scanState (fst (ScannerPage.ui_step e s))))
  || present (ScannerPage.scanResult (fst (ScannerPage.ui_step e s))) = true
  /\ str_truthy (ScannerPage.cameraError (fst (ScannerPage.ui_step e s)))
     = present (ScannerPage.cameraError (fst (ScannerPage.ui_step e s))).
Proof.
  destruct s as [st result stop failure open]. cbn. intros [T C].
  destruct e as [[text|]|d response|f| |]; cbn [ScannerPage.ui_step].
  - cbn in *; auto.
  - cbn in *; auto.
  - unfold ScannerPage.handleScanUpdate_resume.
    destruct response as [r|];
      [destruct (ScannerService.success r);
       [|destruct (ScannerService.duplicate r) as [[|]|]]|];
      cbn in *; auto.
  - split; [exact T|]. cbn.
    destruct f as [text|name]; [reflexivity|].
    destruct (String.eqb name "NotAllowedError"); [reflexivity|].
    destruct (String.eqb name "NotFoundError"); reflexivity.
  - cbn in *; auto.
  - cbn in *; auto.
Qed.

Lemma ui_run_keeps_shape (events : list ScannerPage.UiEvent) :
  forall s,
    negb (ScannerPage.is_terminal (ScannerPage.scanState s))
    || present (ScannerPage.scanResult s) = true
    /\ str_truthy (ScannerPage.cameraError s)
       = present (ScannerPage.cameraError s) ->
    negb (ScannerPage.is_terminal
            (ScannerPage.scanState (fst (ScannerPage.ui_run events s))))
    || present (ScannerPage.scanResult (fst (ScannerPage.ui_run events s)))
    = true
    /\ str_truthy (ScannerPage.cameraError (fst (ScannerPage.ui_run events s)))
       = present (ScannerPage.cameraError (fst (ScannerPage.ui_run events s))).
Proof.
  induction events as [|e rest IH]; intros s I; [exact I|].
  rewrite ui_run_fst. apply IH, ui_step_keeps_shape, I.
Qed.

(** X17. In every state the mounted page can reach, a scan result is
    stored whenever the scan state is one of success, duplicate and error;
    so the page is never blank (the camera alert, the scanner view, the
    processing view or the result view is rendered), and of the three views
    at most one is. *)
Theorem page_never_blank (events : list ScannerPage.UiEvent) :
  let s := fst (ScannerPage.ui_run events ScannerPage.initial) in
  let r := ScannerPage.render s in
  negb (ScannerPage.is_terminal (ScannerPage.scanState s))
  || present (ScannerPage.scanResult s) = true
  /\ present (ScannerPage.cameraAlert r) || ScannerPage.scannerView r
     || ScannerPage.processingView r || present (ScannerPage.resultView r)
     = true
  /\ ScannerPage.scannerView r && ScannerPage.processingView r = false
  /\ ScannerPage.scannerView r && present (ScannerPage.resultView r) = false
  /\ ScannerPage.processingView r && present (ScannerPage.resultView r)
     = false.
Proof.
  intros s r.
  destruct (ui_run_keeps_shape events ScannerPage.initial) as [T C];
    [split; reflexivity|].
  fold s in T, C. split; [exact T|]. unfold r, ScannerPage.render.
  cbn [ScannerPage.cameraAlert ScannerPage.scannerView
       ScannerPage.processingView ScannerPage.resultView].
  rewrite C.
  destruct (ScannerPage.scanState s), (ScannerPage.scanResult s),
    (ScannerPage.cameraError s); cbn in *; try discriminate; auto.
Qed.

(** X18. A camera failure starts no submit and leaves the scan state as
    it is, but hides the scanner view behind an alert: the access-denied
    text for a [NotAllowedError] exception, the no-camera text for a
    [NotFoundError] exception, and the generic text for every failure given
    as a string, whatever the string. Retry then shows the scanner view
    alone again. *)
Theorem camera_failure_and_retry (s : ScannerPage.ScannerState)
    (failure : ScannerPage.CameraFailure) (text : string) :
  let failed := ScannerPage.handleCameraError failure s in
  snd (ScannerPage.ui_step (ScannerPage.CameraFailed failure) s) = None
  /\ ScannerPage.scanState failed = ScannerPage.scanState s
  /\ present (ScannerPage.cameraAlert (ScannerPage.render failed)) = true
  /\ ScannerPage.scannerView (ScannerPage.render failed) = false
  /\ ScannerPage.cameraAlert
       (ScannerPage.render
          (ScannerPage.handleCameraError
             (ScannerPage.FailureException "NotAllowedError") s))
     = Some "Camera access denied. Please allow camera access in your browser settings."
  /\ ScannerPage.cameraAlert
       (ScannerPage.render
          (ScannerPage.handleCameraError
             (ScannerPage.FailureException "NotFoundError") s))
     = Some "No camera found on this device."
  /\ ScannerPage.cameraAlert
       (ScannerPage.render
          (ScannerPage.handleCameraError (ScannerPage.FailureText text) s))
     = Some "Failed to access camera. Please try again."
  /\ ScannerPage.render (ScannerPage.handleScanAnother failed)
     = {| ScannerPage.cameraAlert := None; ScannerPage.scannerView := true;
          ScannerPage.processingView := false;
          ScannerPage.resultView := None |}.
Proof.
  intros failed. split; [reflexivity|]. split; [reflexivity|].
  assert (A : str_truthy (ScannerPage.cameraError failed) = true).
  { unfold failed. cbn. destruct failure as [t|name]; [reflexivity|].
    destruct (String.eqb name "NotAllowedError"); [reflexivity|].
    destruct (String.eqb name "NotFoundError"); reflexivity. }
  unfold ScannerPage.render.
  cbn [ScannerPage.cameraAlert ScannerPage.scannerView].
  rewrite A. cbn [negb]. rewrite andb_false_r.
  split; [destruct (ScannerPage.cameraError failed);
          [reflexivity|discriminate A]|].
  repeat split.
Qed.

(** ** One scan, from the decoded text to the result card *)

(** X19. When the page is scanning and the camera delivers a decoded
    text, [handleScanUpdate] changes the world exactly as one [submitScan]
    of that text does, stops the stream, opens the snackbar and stores the
    text with the service's own message (never a fallback text). The page
    ends in success exactly when the caller was authenticated and the code
    new, in duplicate when authenticated and the code known, in error when
    not authenticated. An update without a result changes nothing. *)
Theorem scan_end_to_end (d : string) (now : Z) (w : World)
    (s : ScannerPage.ScannerState) :
  ScannerPage.scanState s = ScannerPage.Scanning ->
  let w' := fst (handleScanUpdate (Some d) now w s) in
  let s' := snd (handleScanUpdate (Some d) now w s) in
  w' = snd (step (ASubmit d now) w)
  /\ ScannerPage.stopStream s' = true
  /\ ScannerPage.snackbarOpen s' = true
  /\ match ScannerPage.scanState s' with
     | ScannerPage.Success =>
         authenticated w = true
         /\ MockData.isCodeAlreadyScanned d (store w) = false
         /\ ScannerPage.scanResult s'
            = Some {| ScannerPage.data := d;
                      ScannerPage.message := "QR code scanned successfully" |}
     | ScannerPage.Duplicate =>
         authenticated w = true
         /\ MockData.isCodeAlreadyScanned d (store w) = true
         /\ ScannerPage.scanResult s'
            = Some {| ScannerPage.data := d;
                      ScannerPage.message :=
                        "This QR code has already been scanned" |}
     | ScannerPage.Error =>
         authenticated w = false
         /\ ScannerPage.scanResult s'
            = Some {| ScannerPage.data := d;
                      ScannerPage.message := "User not authenticated" |}
     | _ => False
     end
  /\ handleScanUpdate None now w s = (w, s).
Proof.
  intros S w' s'. unfold w', s', handleScanUpdate,
    ScannerPage.handleScanUpdate_start. rewrite S.
  cbn [ScannerPage.ScanState_eqb negb].
  destruct (step_submit d now w) as [[A E]|[[A [D E]]|[A [D E]]]];
    rewrite E; cbn [step] in E;
    destruct (ScannerService.submitScan d now (store w) (localStorage w))
      as [r st'];
    injection E as -> E'; cbn [fst snd]; destruct w as [st ls];
    cbn [store localStorage] in *.
  - injection E' as ->. repeat split; assumption.
  - injection E' as ->. repeat split; assumption.
  - rewrite E'. repeat split; assumption.
Qed.

(** ** The auth context and the history *)

(** X20. When the credentials are recognised and [JSON.parse] reads back
    what [JSON.stringify] printed for the identity (and throws on the
    empty text), the context's [login] reports success and holds the
    identity as user; the auth header built from the storage it leaves
    carries the token as bearer; and loading the application again over
    that storage puts the same user into a fresh context. *)
Theorem context_login_survives_reload (u p : string) (now : Z)
    (st : MockData.Store) (ls : Storage) (s : AuthContext.AuthState)
    (x : MockData.MockUser)
    (net : AuthService.Request -> AuthService.FetchOutcome) :
  MockData.validateCredentials u p st = Some x ->
  let identity :=
    AuthService.AuthUser_value
      {| AuthService.id := MockData.id x;
         AuthService.username := MockData.username x;
         AuthService.email := MockData.email x |} in
  JSON_parse "" = None ->
  JSON_parse (JSON_stringify identity) = Some identity ->
  let logged := AuthContext.login u p now st ls s in
  fst logged
  = (true, None, {| AuthContext.user := identity;
                    AuthContext.isLoading := false |})
  /\ AuthContext.isAuthenticated (snd (fst logged)) = true
  /\ ScannerService.getAuthHeader (snd logged)
     = [("Authorization",
         "Bearer " +:+ MockData.generateMockToken (MockData.id x) now)]
  /\ fst (AuthContext.checkAuth net (snd logged) AuthContext.initial)
     = snd (fst logged).
Proof.
  intros V identity Hempty Hround logged.
  pose proof (login_success u p now st ls x V) as L. cbv zeta in L.
  fold identity in L.
  assert (E : logged
              = (true, None,
                 {| AuthContext.user := identity;
                    AuthContext.isLoading := false |},
                 <[ApiConfig.USER_DATA := JSON_stringify identity]>
                   (<[ApiConfig.AUTH_TOKEN :=
                        MockData.generateMockToken (MockData.id x) now]> ls))).
  { unfold logged, AuthContext.login. rewrite L. reflexivity. }
  rewrite E. cbn [fst snd].
  pose proof (login_session (MockData.generateMockToken (MockData.id x) now)
                (JSON_stringify identity) ls) as S.
  assert (N : JSON_stringify identity <> "").
  { intros Z0. rewrite Z0 in Hround. congruence. }
  split; [reflexivity|]. split; [reflexivity|]. split.
  - unfold persisted_session in S. injection S as T _.
    unfold ScannerService.getAuthHeader, getItem. rewrite T.
    pose proof (token_nonempty (MockData.id x) now) as K.
    apply str_truthy_Some in K. rewrite K. reflexivity.
  - unfold AuthContext.checkAuth, AuthService.validateToken.
    change ApiConfig.USE_MOCK with true.
    rewrite (validateToken_mock_valid net _ _ _ identity S
               (token_nonempty _ _) N (token_has_prefix _ _) Hround).
    reflexivity.
Qed.

(** X21. A [submitScan] by a caller whose stored identity has the number
    [a] as id leaves the history of every other number id as it was, while
    the caller's own history grows by at most the one new record. *)
Theorem history_isolation (a b : Z) (d : string) (now : Z)
    (st : MockData.Store) (ls : Storage) :
  get_prop (AuthService.getCurrentUser ls) "id" = JNum a ->
  a <> b ->
  let st' := snd (ScannerService.submitScan d now st ls) in
  MockData.getUserScanHistory (JNum b) st'
  = MockData.getUserScanHistory (JNum b) st
  /\ exists added,
       MockData.getUserScanHistory (JNum a) st'
       = (MockData.getUserScanHistory (JNum a) st ++ added)%list
       /\ (length added <= 1)%nat.
Proof.
  intros I N st'. unfold st'.
  destruct (submitScan_cases d now st ls) as [[_ E]|[[_ [_ E]]|[_ [_ E]]]];
    rewrite E; cbn [snd].
  - split; [reflexivity|]. exists []. rewrite List.app_nil_r. split; [reflexivity|cbn; lia].
  - split; [reflexivity|]. exists []. rewrite List.app_nil_r. split; [reflexivity|cbn; lia].
  - rewrite I. unfold MockData.getUserScanHistory.
    cbn [snd MockData.addScannedCode MockData.scannedCodes].
    rewrite !List.filter_app. cbn [List.filter MockData.userId strict_eq].
    rewrite Z.eqb_refl. destruct (Z.eqb_spec a b) as [|_]; [contradiction|].
    split; [apply List.app_nil_r|]. eexists. split; [reflexivity|cbn; lia].
Qed.

End Coverage.

(** * The further properties on concrete inputs *)

(** The demo credentials after alice has signed up and a logout. *)
Lemma credentials_stay_valid_witness :
  MockData.validateCredentials "demo" "demo123" (store (init_world ∅))
  = Some MockData.demo_user
  /\ MockData.validateCredentials "demo" "demo123"
       (store (snd (@run Json.runtime
                      [ASignup "alice" "alice@example.com" "wonderland";
                       ALogout]
                      (init_world ∅))))
     = Some MockData.demo_user.
Proof.
  split; [reflexivity|].
  apply (credentials_stay_valid (rt := Json.runtime) "demo" "demo123"
           MockData.demo_user
           [ASignup "alice" "alice@example.com" "wonderland"; ALogout]
           (init_world ∅) 9).
  reflexivity.
Defined.

(** The logged-in demo user submits a new code. *)
Lemma check_agrees_with_submit_witness :
  truthy (@AuthService.getCurrentUser Json.runtime Scenario.demo_storage) = true
  /\ outcome_of
       (fst (@ScannerService.submitScan Json.runtime "CODE-1" 6
               MockData.init_store Scenario.demo_storage))
     = Accepted.
Proof.
  split; [reflexivity|].
  apply (check_agrees_with_submit (rt := Json.runtime) "CODE-1" 6
           MockData.init_store Scenario.demo_storage).
  reflexivity.
Defined.

(** A scanned code, then a logout and another submit of it. *)
Lemma duplicate_stays_duplicate_witness :
  ScannerService.checkDuplicate "CODE-1" (store Scenario.scanned_world) = true
  /\ ScannerService.checkDuplicate "CODE-1"
       (store (snd (@run Json.runtime [ALogout; ASubmit "CODE-1" 8]
                      Scenario.scanned_world)))
     = true.
Proof.
  split; [reflexivity|].
  apply (duplicate_stays_duplicate (rt := Json.runtime) "CODE-1"
           [ALogout; ASubmit "CODE-1" 8] Scenario.scanned_world).
  reflexivity.
Defined.

(** Alice signs up on a fresh page load and logs in. *)
Lemma signup_then_login_witness :
  AuthService.signup_success
    (fst (AuthService.signup "alice" "alice@example.com" "wonderland"
            MockData.init_store)) = true
  /\ AuthService.user
       (fst (@AuthService.login Json.runtime "alice" "wonderland" 1000
               (snd (AuthService.signup "alice" "alice@example.com"
                       "wonderland" MockData.init_store)) ∅))
     = Some {| AuthService.id := 2; AuthService.username := "alice";
               AuthService.email := "alice@example.com" |}.
Proof.
  split; [reflexivity|].
  rewrite (signup_then_login (rt := Json.runtime) "alice" "alice@example.com"
             "wonderland" 1000 MockData.init_store ∅ eq_refl).
  reflexivity.
Defined.

(** Alice has signed up; her username and her email are refused. *)
Lemma signup_rejects_taken_witness :
  AuthService.signup_success
    (fst (AuthService.signup "alice" "alice@example.com" "wonderland"
            MockData.init_store)) = true
  /\ AuthService.signup_error
       (fst (AuthService.signup "alice" "other@example.com" "pw"
               (snd (AuthService.signup "alice" "alice@example.com"
                       "wonderland" MockData.init_store))))
     = Some "Username already taken".
Proof.
  split; [reflexivity|].
  destruct (signup_rejects_taken "alice" "alice@example.com" "wonderland"
              "bob" "other@example.com" "pw" MockData.init_store eq_refl)
    as [R _].
  rewrite R. reflexivity.
Defined.

(** The demo user logs in and scans a first code. *)
Lemma login_then_submit_witness :
  MockData.validateCredentials "demo" "demo123" MockData.init_store
  = Some MockData.demo_user
  /\ Json.parse "" = None
  /\ Json.parse (Json.stringify (AuthService.AuthUser_value Scenario.demo_auth))
     = Some (AuthService.AuthUser_value Scenario.demo_auth)
  /\ MockData.isCodeAlreadyScanned "CODE-1" MockData.init_store = false
  /\ @AuthService.getCurrentUser Json.runtime Scenario.demo_storage
     = AuthService.AuthUser_value Scenario.demo_auth.
Proof.
  split; [reflexivity|]. split; [reflexivity|]. split; [reflexivity|].
  split; [reflexivity|].
  apply (login_then_submit (rt := Json.runtime) "demo" "demo123" "CODE-1" 5 6
           MockData.init_store ∅ MockData.demo_user);
    reflexivity.
Defined.

(** The validation endpoint rejects a stored token. *)
Lemma real_validation_by_response_witness :
  persisted_session Scenario.forged_storage
  = (Some "mock-jwt-token-forged", Some (Json.stringify Scenario.forged_user))
  /\ "mock-jwt-token-forged" <> ""
  /\ Json.stringify Scenario.forged_user <> ""
  /\ fst (@AuthService.validateToken_with Json.runtime false
            Scenario.reject_all Scenario.forged_storage)
     = (AuthService.not_valid, AuthService.logout Scenario.forged_storage).
Proof.
  split; [reflexivity|]. split; [discriminate|]. split; [discriminate|].
  apply (real_validation_by_response (rt := Json.runtime) Scenario.reject_all
           Scenario.reject_all Scenario.forged_storage
           "mock-jwt-token-forged" (Json.stringify Scenario.forged_user));
    [reflexivity | discriminate | discriminate].
Defined.

(** The identity entry holds the text [null]. *)
Lemma falsy_identity_valid_but_unauthenticated_witness :
  persisted_session Scenario.null_identity_storage
  = (Some "mock-jwt-token-1-5", Some "null")
  /\ Json.parse "null" = Some JNull
  /\ truthy JNull = false
  /\ @AuthService.validateToken Json.runtime Scenario.reject_all
       Scenario.null_identity_storage
     = ({| AuthService.valid := true; AuthService.valid_user := JNull |},
        Scenario.null_identity_storage, []).
Proof.
  split; [reflexivity|]. split; [reflexivity|]. split; [reflexivity|].
  apply (falsy_identity_valid_but_unauthenticated (rt := Json.runtime)
           Scenario.null_identity_storage "mock-jwt-token-1-5" "null" JNull
           "CODE-1" 6 MockData.init_store Scenario.reject_all);
    reflexivity || discriminate.
Defined.

(** An identity entry with no token beside it. *)
Lemma submit_ignores_token_witness :
  Scenario.tokenless_storage !! ApiConfig.AUTH_TOKEN = None
  /\ Scenario.tokenless_storage !! ApiConfig.USER_DATA
     = Some (Json.stringify Scenario.forged_user)
  /\ Json.parse (Json.stringify Scenario.forged_user)
     = Some Scenario.forged_user
  /\ outcome_of
       (fst (@ScannerService.submitScan Json.runtime "CODE-1" 6
               MockData.init_store Scenario.tokenless_storage))
     = Accepted.
Proof.
  split; [reflexivity|]. split; [reflexivity|]. split; [reflexivity|].
  apply (submit_ignores_token (rt := Json.runtime) Scenario.tokenless_storage
           (Json.stringify Scenario.forged_user) Scenario.forged_user
           "CODE-1" 6 MockData.init_store Scenario.reject_all);
    reflexivity || discriminate.
Defined.

(** Two users logging in at the same clock reading. *)
Lemma tokens_distinct_witness :
  0 <= 1 /\ 0 <= 2 /\ (1, 5) <> (2, 5)
  /\ MockData.generateMockToken 1 5 <> MockData.generateMockToken 2 5.
Proof.
  split; [lia|]. split; [lia|]. split; [discriminate|].
  apply (tokens_distinct 1 2 5 5); [lia | lia | discriminate].
Defined.

(** The freshly mounted page decodes a code for the logged-in demo user. *)
Lemma scan_end_to_end_witness :
  ScannerPage.scanState ScannerPage.initial = ScannerPage.Scanning
  /\ fst (@handleScanUpdate Json.runtime (Some "CODE-1") 6
            {| store := MockData.init_store;
               localStorage := Scenario.demo_storage |}
            ScannerPage.initial)
     = snd (@step Json.runtime (ASubmit "CODE-1" 6)
              {| store := MockData.init_store;
                 localStorage := Scenario.demo_storage |}).
Proof.
  split; [reflexivity|].
  apply (scan_end_to_end (rt := Json.runtime) "CODE-1" 6
           {| store := MockData.init_store;
              localStorage := Scenario.demo_storage |}
           ScannerPage.initial).
  reflexivity.
Defined.

(** The demo user logs in through the context on a fresh page load. *)
Lemma context_login_survives_reload_witness :
  MockData.validateCredentials "demo" "demo123" MockData.init_store
  = Some MockData.demo_user
  /\ Json.parse "" = None
  /\ Json.parse (Json.stringify (AuthService.AuthUser_value Scenario.demo_auth))
     = Some (AuthService.AuthUser_value Scenario.demo_auth)
  /\ AuthContext.isAuthenticated
       (snd (fst (@AuthContext.login Json.runtime "demo" "demo123" 5
                    MockData.init_store ∅ AuthContext.initial)))
     = true.
Proof.
  split; [reflexivity|]. split; [reflexivity|]. split; [reflexivity|].
  apply (context_login_survives_reload (rt := Json.runtime) "demo" "demo123" 5
           MockData.init_store ∅ AuthContext.initial MockData.demo_user
           Scenario.reject_all);
    reflexivity.
Defined.

(** The demo user (id 1) scans; the history of id 2 is untouched. *)
Lemma history_isolation_witness :
  get_prop (@AuthService.getCurrentUser Json.runtime Scenario.demo_storage) "id"
  = JNum 1
  /\ 1 <> 2
  /\ MockData.getUserScanHistory (JNum 2)
       (snd (@ScannerService.submitScan Json.runtime "CODE-1" 6
               MockData.init_store Scenario.demo_storage))
     = MockData.getUserScanHistory (JNum 2) MockData.init_store.
Proof.
  split; [reflexivity|]. split; [lia|].
  apply (history_isolation (rt := Json.runtime) 1 2 "CODE-1" 6
           MockData.init_store Scenario.demo_storage);
    [reflexivity | lia].
Defined.
